(** * The Supabase data-access facade of [supabase.js]

    A shallow embedding of the module together with the properties its
    specification states about it.

    The module keeps one module-level variable, [supabase], which holds the
    client built at load time or [null].  Every exported operation first asks
    [isSupabaseAvailable], then builds one query with the client's builder
    methods, awaits it inside a [try]/[catch], and translates the outcome.

    Modelling choices:
    - JavaScript values are the JSON values plus [undefined].  A string is
      held in its UTF-8 encoding.  Numbers are the integer-valued ones.
    - Two built-ins of the language rest on tables that are no part of the
      module, [String.prototype.toUpperCase] and the printing of a number;
      they are taken from the engine, of which only standard facts are
      assumed (class [Engine]).
    - An [async] function is a computation over the module state that either
      returns a value (the promise is fulfilled) or throws (it is rejected).
    - The remote service sits behind the client: awaiting a query hands the
      chain of builder calls to the client, which answers from the remote
      state and may change it.  Every awaited query is recorded in [issued].
    - Console output is a diagnostic side channel with no influence on any
      returned value.  The lines printed by the operations are not modelled;
      those printed while the module loads are given by [load_console]. *)

From Stdlib Require Import ZArith Ascii String.
From stdpp Require Import base option list gmap strings pretty.

Set Warnings "-register-all".
Open Scope string_scope.

(** ** JavaScript values *)

Inductive value : Type :=
| VUndefined
| VNull
| VBool (b : bool)
| VNum (n : Z)
| VStr (s : string)
| VArr (elems : list value)
| VObj (fields : gmap string value).

(** What a [throw] carries: the [TypeError] the language raises by itself
    (a member read on [null], a call of something that is not a function), or
    whatever the client library throws. *)
Inductive exn : Type :=
| TypeError
| Thrown (reason : value).

Inductive outcome (A : Type) : Type :=
| Returned (a : A)
| Threw (e : exn).
Arguments Returned {A} a.
Arguments Threw {A} e.

(** [ToBoolean]: the test of [if (v)], [v || w] and [v && w]. *)
Definition truthy (v : value) : bool :=
  match v with
  | VUndefined | VNull => false
  | VBool b => b
  | VNum n => negb (n =? 0)%Z
  | VStr s => negb (String.eqb s "")
  | VArr _ | VObj _ => true
  end.

(** [v || w]. *)
Definition js_or (v w : value) : value := if truthy v then v else w.

(** ** Letter case on the ASCII range *)

Definition is_lower (c : ascii) : bool :=
  (97 <=? nat_of_ascii c)%nat && (nat_of_ascii c <=? 122)%nat.

Definition is_upper (c : ascii) : bool :=
  (65 <=? nat_of_ascii c)%nat && (nat_of_ascii c <=? 90)%nat.

Definition upper_ascii (c : ascii) : ascii :=
  if is_lower c then ascii_of_nat (nat_of_ascii c - 32) else c.

(** Upper-casing of the letters [a]..[z], every other byte left alone. *)
Fixpoint ascii_toUpperCase (s : string) : string :=
  match s with
  | EmptyString => EmptyString
  | String c rest => String (upper_ascii c) (ascii_toUpperCase rest)
  end.

(** Every character of the string is an ASCII character. *)
Fixpoint is_ascii (s : string) : bool :=
  match s with
  | EmptyString => true
  | String c rest => (nat_of_ascii c <? 128)%nat && is_ascii rest
  end.

(** Two ASCII characters that are the same letter in either case, and two
    strings that differ at most in the case of their ASCII letters. *)
Definition swap_case (c : ascii) : ascii :=
  if is_lower c then ascii_of_nat (nat_of_ascii c - 32)
  else if is_upper c then ascii_of_nat (nat_of_ascii c + 32)
  else c.

Inductive same_modulo_case : string -> string -> Prop :=
| smc_empty : same_modulo_case "" ""
| smc_same c s t :
    same_modulo_case s t -> same_modulo_case (String c s) (String c t)
| smc_swap c s t :
    same_modulo_case s t -> same_modulo_case (String c s) (String (swap_case c) t).

(** None of the letters [a]..[z] occurs in the string. *)
Fixpoint upper_normal (s : string) : bool :=
  match s with
  | EmptyString => true
  | String c rest => negb (is_lower c) && upper_normal rest
  end.

(** ** What the module takes from the engine

    [toUpperCase] is [String.prototype.toUpperCase] and [Number_toString] is
    the conversion of a number to a string.  Both follow tables of the
    language standard; what is assumed of them is that an ASCII string is
    upper-cased letter by letter, that no upper-cased string contains one of
    the letters [a]..[z], and that a safe integer prints in plain decimal
    notation. *)
Class Engine : Type := {
  toUpperCase : string -> string;
  Number_toString : Z -> string;
  toUpperCase_ascii :
    forall s, is_ascii s = true -> toUpperCase s = ascii_toUpperCase s;
  toUpperCase_upper_normal :
    forall s, upper_normal (toUpperCase s) = true;
  Number_toString_safe :
    forall n, (Z.abs n < 2 ^ 53)%Z -> Number_toString n = pretty n
}.

(** [ToString], as applied to a computed member key [o[v]].  An array prints
    its elements separated by commas, with [null] and [undefined] elements
    printed as nothing.  An object prints as [[object Object]] through the
    inherited [toString]; an own member named [toString] shadows it and, not
    being callable, leaves the conversion without a primitive: it throws. *)
Fixpoint ToString {E : Engine} (v : value) : outcome string :=
  match v with
  | VUndefined => Returned "undefined"
  | VNull => Returned "null"
  | VBool true => Returned "true"
  | VBool false => Returned "false"
  | VNum n => Returned (Number_toString n)
  | VStr s => Returned s
  | VArr elems =>
      (fix join (l : list value) : outcome string :=
         match l with
         | [] => Returned ""
         | x :: rest =>
             match match x with
                   | VUndefined | VNull => Returned ""
                   | _ => ToString x
                   end with
             | Threw e => Threw e
             | Returned sx =>
                 match rest with
                 | [] => Returned sx
                 | _ :: _ =>
                     match join rest with
                     | Threw e => Threw e
                     | Returned sr => Returned (sx ++ "," ++ sr)
                     end
                 end
             end
         end) elems
  | VObj fields =>
      if bool_decide (fields !! "toString" = None)
      then Returned "[object Object]"
      else Threw TypeError
  end.

(** [v.name] for the three member names the module reads, [data], [error] and
    [clinic_code].  None of them is a built-in member of a string, a number,
    a boolean or an array, so on those receivers the read yields [undefined];
    on [null] and [undefined] it throws. *)
Definition get_member (v : value) (name : string) : outcome value :=
  match v with
  | VUndefined | VNull => Threw TypeError
  | VObj fields => Returned (default VUndefined (fields !! name))
  | VBool _ | VNum _ | VStr _ | VArr _ => Returned VUndefined
  end.

(** [v.toUpperCase()]: only a string has the method; on [null] and
    [undefined] the member read throws, on every other value the member is
    [undefined] and the call throws. *)
Definition call_toUpperCase {E : Engine} (v : value) : outcome string :=
  match v with
  | VStr s => Returned (toUpperCase s)
  | _ => Threw TypeError
  end.

(** ** Queries

    A query is the chain of builder calls made on the client, in call order:
    [supabase.from("clinics").select("*").eq("clinic_code", c).single()] is
    [[From "clinics"; Select (Some "*"); Eq "clinic_code" c; Single]]. *)

Inductive builder_call : Type :=
| From (table : string)
| Select (columns : option string)
| Insert (rows : list value)
| Update (updates : value)
| Eq (column : string) (operand : value)
| Single.

Definition query : Type := list builder_call.

(** ** The object built by [getAllClinics]

    [clinicsObj] starts as the literal [{}], whose prototype is
    [Object.prototype].  An assignment [clinicsObj[key] = v] creates or
    overwrites an own property, except for the key [__proto__]: unless an own
    or inherited data property of that name is found first, the assignment
    reaches the accessor of [Object.prototype], which replaces the prototype
    when [v] is an object or [null] and does nothing otherwise. *)

Inductive prototype : Type :=
| ObjectPrototype
| NullPrototype
| ProtoValue (v : value).

Record object : Type := {
  own : gmap string value;
  proto : prototype
}.

Definition empty_object : object := {| own := ∅; proto := ObjectPrototype |}.

Definition reaches_proto_accessor (p : prototype) : bool :=
  match p with
  | ObjectPrototype => true
  | NullPrototype => false
  | ProtoValue (VObj fields) => bool_decide (fields !! "__proto__" = None)
  | ProtoValue _ => true
  end.

Definition proto_setter (o : object) (v : value) : object :=
  match v with
  | VObj _ | VArr _ => {| own := own o; proto := ProtoValue v |}
  | VNull => {| own := own o; proto := NullPrototype |}
  | _ => o
  end.

Definition define_own (o : object) (key : string) (v : value) : object :=
  {| own := <[key := v]> (own o); proto := proto o |}.

Definition set_member (o : object) (key : string) (v : value) : object :=
  if bool_decide (key = "__proto__")
     && bool_decide (own o !! key = None)
     && reaches_proto_accessor (proto o)
  then proto_setter o v
  else define_own o key v.

(** [data.forEach((clinic) => { clinicsObj[clinic.clinic_code] = clinic; })]
    on the elements of an array. *)
Fixpoint forEach_clinic {E : Engine} (rows : list value) (clinicsObj : object) :
  outcome object :=
  match rows with
  | [] => Returned clinicsObj
  | clinic :: rest =>
      match get_member clinic "clinic_code" with
      | Threw e => Threw e
      | Returned code =>
          match ToString code with
          | Threw e => Threw e
          | Returned key => forEach_clinic rest (set_member clinicsObj key clinic)
          end
      end
  end.

(** ** The module state and the operations *)

Section Facade.

(** The state of the remote service, and the engine the module runs on. *)
Context {DB : Type} {E : Engine}.

(** The client object: awaiting a query yields the fulfilled value or a
    rejection, and leaves the remote in a possibly different state. *)
Record client : Type := {
  perform : query -> DB -> outcome value * DB
}.

(** The module-level variable [supabase] ([None] is [null]), the remote
    service, and the queries awaited so far, oldest first. *)
Record state : Type := {
  supabase : option client;
  remote : DB;
  issued : list query
}.

(** A computation of an [async] function body. *)
Definition M (A : Type) : Type := state -> outcome A * state.

Definition ret {A} (a : A) : M A := fun st => (Returned a, st).

Definition throw {A} (e : exn) : M A := fun st => (Threw e, st).

Definition bind {A B} (m : M A) (k : A -> M B) : M B :=
  fun st =>
    match m st with
    | (Returned a, st') => k a st'
    | (Threw e, st') => (Threw e, st')
    end.

Definition lift {A} (o : outcome A) : M A := fun st => (o, st).

(** [try { body } catch (error) { handler }]. *)
Definition try_catch {A} (body : M A) (handler : exn -> M A) : M A :=
  fun st =>
    match body st with
    | (Returned a, st') => (Returned a, st')
    | (Threw e, st') => handler e st'
    end.

Notation "'let*' x ':=' m 'in' k" := (bind m (fun x => k))
  (at level 10, x pattern, m at level 100, k at level 200).

(** [await supabase.<chain>]: the builder calls are made on the object held
    by [supabase]; the request is sent when the chain is awaited. *)
Definition await (q : query) : M value :=
  fun st =>
    match supabase st with
    | None => (Threw TypeError, st)
    | Some c =>
        let (answer, remote') := perform c q (remote st) in
        (answer, {| supabase := supabase st;
                    remote := remote';
                    issued := issued st ++ [q] |})
    end.

(** [const { data, error } = r]. *)
Definition destructure (r : value) : outcome (value * value) :=
  match get_member r "data", get_member r "error" with
  | Returned data, Returned error => Returned (data, error)
  | Threw e, _ => Threw e
  | _, Threw e => Threw e
  end.

Definition isSupabaseAvailable : M bool :=
  fun st => (Returned (bool_decide (supabase st ≠ None)), st).

(** *** Clinics *)

Definition getClinicByCode (clinicCode : value) : M value :=
  let* available := isSupabaseAvailable in
  if negb available then ret VNull else
  try_catch
    (let* code := lift (call_toUpperCase clinicCode) in
     let* r := await [From "clinics"; Select (Some "*");
                      Eq "clinic_code" (VStr code); Single] in
     let* (data, error) := lift (destructure r) in
     if truthy error then ret VNull else ret data)
    (fun _ => ret VNull).

Definition getAllClinics : M object :=
  let* available := isSupabaseAvailable in
  if negb available then ret empty_object else
  try_catch
    (let* r := await [From "clinics"; Select (Some "*")] in
     let* (data, error) := lift (destructure r) in
     if truthy error then ret empty_object else
     let clinicsObj := empty_object in
     if truthy data then
       match data with
       | VArr rows => lift (forEach_clinic rows clinicsObj)
       | _ => throw TypeError
       end
     else ret clinicsObj)
    (fun _ => ret empty_object).

Definition createClinic (clinicData : value) : M value :=
  let* available := isSupabaseAvailable in
  if negb available then ret VNull else
  try_catch
    (let* r := await [From "clinics"; Insert [clinicData]; Select None; Single] in
     let* (data, error) := lift (destructure r) in
     if truthy error then ret VNull else ret data)
    (fun _ => ret VNull).

Definition updateClinic (clinicCode updates : value) : M value :=
  let* available := isSupabaseAvailable in
  if negb available then ret VNull else
  try_catch
    (let* code := lift (call_toUpperCase clinicCode) in
     let* r := await [From "clinics"; Update updates;
                      Eq "clinic_code" (VStr code); Select None; Single] in
     let* (data, error) := lift (destructure r) in
     if truthy error then ret VNull else ret data)
    (fun _ => ret VNull).

(** *** Patients *)

Definition getPatientById (patientId : value) : M value :=
  let* available := isSupabaseAvailable in
  if negb available then ret VNull else
  try_catch
    (let* r := await [From "patients"; Select (Some "*");
                      Eq "patient_id" patientId; Single] in
     let* (data, error) := lift (destructure r) in
     if truthy error then ret VNull else ret data)
    (fun _ => ret VNull).

Definition getPatientsByClinicCode (clinicCode : value) : M value :=
  let* available := isSupabaseAvailable in
  if negb available then ret (VArr []) else
  try_catch
    (let* code := lift (call_toUpperCase clinicCode) in
     let* r := await [From "patients"; Select (Some "*");
                      Eq "clinic_code" (VStr code)] in
     let* (data, error) := lift (destructure r) in
     if truthy error then ret (VArr []) else ret (js_or data (VArr [])))
    (fun _ => ret (VArr [])).

Definition createPatient (patientData : value) : M value :=
  let* available := isSupabaseAvailable in
  if negb available then ret VNull else
  try_catch
    (let* r := await [From "patients"; Insert [patientData]; Select None; Single] in
     let* (data, error) := lift (destructure r) in
     if truthy error then ret VNull else ret data)
    (fun _ => ret VNull).

Definition updatePatient (patientId updates : value) : M value :=
  let* available := isSupabaseAvailable in
  if negb available then ret VNull else
  try_catch
    (let* r := await [From "patients"; Update updates;
                      Eq "patient_id" patientId; Select None; Single] in
     let* (data, error) := lift (destructure r) in
     if truthy error then ret VNull else ret data)
    (fun _ => ret VNull).

(** *** The exported operations as one interface *)

Inductive call : Type :=
| GetClinicByCode (clinicCode : value)
| GetAllClinics
| CreateClinic (clinicData : value)
| UpdateClinic (clinicCode updates : value)
| GetPatientById (patientId : value)
| GetPatientsByClinicCode (clinicCode : value)
| CreatePatient (patientData : value)
| UpdatePatient (patientId updates : value).

Inductive result : Type :=
| Value (v : value)
| Mapping (o : object).

Definition invoke (c : call) : M result :=
  match c with
  | GetClinicByCode clinicCode =>
      let* v := getClinicByCode clinicCode in ret (Value v)
  | GetAllClinics =>
      let* o := getAllClinics in ret (Mapping o)
  | CreateClinic clinicData =>
      let* v := createClinic clinicData in ret (Value v)
  | UpdateClinic clinicCode updates =>
      let* v := updateClinic clinicCode updates in ret (Value v)
  | GetPatientById patientId =>
      let* v := getPatientById patientId in ret (Value v)
  | GetPatientsByClinicCode clinicCode =>
      let* v := getPatientsByClinicCode clinicCode in ret (Value v)
  | CreatePatient patientData =>
      let* v := createPatient patientData in ret (Value v)
  | UpdatePatient patientId updates =>
      let* v := updatePatient patientId updates in ret (Value v)
  end.

(** The state after a caller has made the calls one after the other. *)
Fixpoint invoke_all (cs : list call) (st : state) : state :=
  match cs with
  | [] => st
  | c :: rest => invoke_all rest (snd (invoke c st))
  end.

(** The value each operation documents for "nothing to give": [null] for the
    single-record operations, [[]] for [getPatientsByClinicCode], [{}] for
    [getAllClinics]. *)
Definition neutral (c : call) : result :=
  match c with
  | GetAllClinics => Mapping empty_object
  | GetPatientsByClinicCode _ => Value (VArr [])
  | _ => Value VNull
  end.

(** An awaited query failed: it was rejected, or it was fulfilled with a
    response whose [error] member is set (an error object is truthy), or with
    [null] or [undefined], which cannot be destructured. *)
Definition failed (answer : outcome value) : bool :=
  match answer with
  | Threw _ => true
  | Returned r =>
      match get_member r "error" with
      | Returned error => truthy error
      | Threw _ => true
      end
  end.

(** ** Module load *)

(** The options object passed to [createClient]:
    [{ auth: { autoRefreshToken: false, persistSession: false } }]. *)
Record auth_options : Type := {
  autoRefreshToken : bool;
  persistSession : bool
}.

(** [createClient] of the client library: it returns a client object or
    throws. *)
Definition factory : Type := string -> string -> auth_options -> outcome client.

(** [require("@supabase/supabase-js")] throws when the package is not
    installed; otherwise [supabaseModule.createClient] is the export, or
    [undefined] when the module has none. *)
Inductive required : Type :=
| ModuleNotFound
| ModuleFound (export : option factory).

(** What the module reads from its host at load time; a variable that is not
    set in [process.env] reads as [undefined]. *)
Record environment : Type := {
  supabase_js : required;
  env_SUPABASE_URL : option string;
  env_SUPABASE_SERVICE_ROLE_KEY : option string
}.

(** [process.env.NAME || ""]. *)
Definition or_empty (v : option string) : string :=
  match v with
  | Some s => if String.eqb s "" then "" else s
  | None => ""
  end.

Definition createClient (e : environment) : option factory :=
  match supabase_js e with
  | ModuleNotFound => None
  | ModuleFound export => export
  end.

Definition SUPABASE_URL (e : environment) : string :=
  or_empty (env_SUPABASE_URL e).

Definition SUPABASE_SERVICE_ROLE_KEY (e : environment) : string :=
  or_empty (env_SUPABASE_SERVICE_ROLE_KEY e).

(** The assignments to [supabase] that the module body executes after the
    declaration [let supabase = null], in execution order. *)
Definition supabase_assignments (e : environment) : list client :=
  match createClient e with
  | Some create =>
      if negb (String.eqb (SUPABASE_URL e) "")
         && negb (String.eqb (SUPABASE_SERVICE_ROLE_KEY e) "")
      then
        match create (SUPABASE_URL e) (SUPABASE_SERVICE_ROLE_KEY e)
                {| autoRefreshToken := false; persistSession := false |} with
        | Returned c => [c]
        | Threw _ => []
        end
      else []
  | None => []
  end.

(** ** What the module prints while it loads

    The lines written to the console by the module body, one constructor per
    [console] statement of the source. *)
Inductive console_line : Type :=
| WarnPackageNotFound        (* in the handler of the failed [require] *)
| WarnInstallHint            (* in the handler of the failed [require] *)
| LogClientInitialized       (* after [createClient] has returned *)
| ErrorInitFailed (e : exn)  (* in the handler of a throwing [createClient] *)
| WarnFileFallback           (* in the handler of a throwing [createClient] *)
| WarnPackageNotAvailable    (* [createClient] is [null] or [undefined] *)
| WarnCredentialsNotFound    (* the URL or the key is empty *)
| WarnSetCredentialsHint.    (* the URL or the key is empty *)

(** [error.message] can be read from whatever was thrown, unless that is
    [null] or [undefined]. *)
Definition message_readable (e : exn) : bool :=
  match e with
  | Thrown VNull | Thrown VUndefined => false
  | Thrown _ | TypeError => true
  end.

(** The console lines of a load, in order.  The handler of a throwing
    [createClient] reads [error.message]; when that read throws, nothing
    catches it and the module fails to load. *)
Definition load_console (e : environment) : outcome (list console_line) :=
  let require_lines :=
    match supabase_js e with
    | ModuleNotFound => [WarnPackageNotFound; WarnInstallHint]
    | ModuleFound _ => []
    end in
  match createClient e with
  | Some create =>
      if negb (String.eqb (SUPABASE_URL e) "")
         && negb (String.eqb (SUPABASE_SERVICE_ROLE_KEY e) "")
      then
        match create (SUPABASE_URL e) (SUPABASE_SERVICE_ROLE_KEY e)
                {| autoRefreshToken := false; persistSession := false |} with
        | Returned _ => Returned (require_lines ++ [LogClientInitialized])%list
        | Threw error =>
            if message_readable error
            then Returned (require_lines ++ [ErrorInitFailed error; WarnFileFallback])%list
            else Threw TypeError
        end
      else Returned (require_lines ++ [WarnCredentialsNotFound; WarnSetCredentialsHint])%list
  | None => Returned (require_lines ++ [WarnPackageNotAvailable])%list
  end.

(** The state in which the module is left once its body has run to its
    end: [supabase] holds what was last assigned to it.  A load that throws
    leaves no module. *)
Definition module_load (e : environment) (db : DB) : outcome state :=
  match load_console e with
  | Returned _ =>
      Returned {| supabase := last (supabase_assignments e);
                  remote := db;
                  issued := [] |}
  | Threw x => Threw x
  end.

End Facade.

Arguments client : clear implicits.
Arguments state : clear implicits.
Arguments factory : clear implicits.
Arguments required : clear implicits.
Arguments environment : clear implicits.

(** ** Vocabulary of the statements *)

(** The property key under which a clinic record is filed: its [clinic_code]
    member, converted as a computed member key is. *)
Definition clinic_key {E : Engine} (fields : gmap string value) : outcome string :=
  ToString (default VUndefined (fields !! "clinic_code")).

(** A response object [{ data, error }]. *)
Definition response (data error : value) : value :=
  VObj (<["data" := data]> (<["error" := error]> ∅)).

(** The four preconditions of a successful load: the package was found and
    exports [createClient], both configuration strings are set and not empty,
    and [createClient] returned a client. *)
Definition bootstrap_succeeds {DB} (e : environment DB) : Prop :=
  ∃ create url key cl,
    supabase_js e = ModuleFound (Some create)
    ∧ env_SUPABASE_URL e = Some url ∧ url ≠ ""
    ∧ env_SUPABASE_SERVICE_ROLE_KEY e = Some key ∧ key ≠ ""
    ∧ create url key {| autoRefreshToken := false; persistSession := false |}
      = Returned cl.

(** The table a query is addressed to: the argument of its leading [from]. *)
Definition table_of (q : query) : option string :=
  match q with
  | From table :: _ => Some table
  | _ => None
  end.

(** The query asks the remote to insert or update rows. *)
Definition writes (q : query) : bool :=
  existsb (fun b => match b with Insert _ | Update _ => true | _ => false end) q.

(** The query restricts the rows it touches to those whose [column] equals
    something. *)
Definition filters_on (column : string) (q : query) : bool :=
  existsb (fun b => match b with Eq col _ => String.eqb col column | _ => false end) q.

(** Every [insert] of the query carries exactly one row. *)
Definition inserts_one_row (q : query) : bool :=
  forallb (fun b => match b with Insert rows => (length rows =? 1)%nat | _ => true end) q.

(** The query contains an [update]. *)
Definition updates_rows (q : query) : bool :=
  existsb (fun b => match b with Update _ => true | _ => false end) q.

(** The four operations whose names start with [get]. *)
Definition is_lookup (c : call) : bool :=
  match c with
  | GetClinicByCode _ | GetAllClinics | GetPatientById _
  | GetPatientsByClinicCode _ => true
  | CreateClinic _ | UpdateClinic _ _ | CreatePatient _ | UpdatePatient _ _ => false
  end.

(** The section of the module an operation is declared in. *)
Definition home_table (c : call) : string :=
  match c with
  | GetClinicByCode _ | GetAllClinics | CreateClinic _ | UpdateClinic _ _ => "clinics"
  | GetPatientById _ | GetPatientsByClinicCode _ | CreatePatient _
  | UpdatePatient _ _ => "patients"
  end.

(** The column an operation selects its rows by, if it selects any. *)
Definition key_column (c : call) : option string :=
  match c with
  | GetClinicByCode _ | UpdateClinic _ _ | GetPatientsByClinicCode _ => Some "clinic_code"
  | GetPatientById _ | UpdatePatient _ _ => Some "patient_id"
  | GetAllClinics | CreateClinic _ | CreatePatient _ => None
  end.

(** The operation takes a clinic code and was given something that is not a
    string. *)
Definition code_unusable (c : call) : bool :=
  match c with
  | GetClinicByCode (VStr _) | UpdateClinic (VStr _) _
  | GetPatientsByClinicCode (VStr _) => false
  | GetClinicByCode _ | UpdateClinic _ _ | GetPatientsByClinicCode _ => true
  | GetAllClinics | CreateClinic _ | GetPatientById _ | CreatePatient _
  | UpdatePatient _ _ => false
  end.

(** What a query sent by an operation looks like: it goes to the
    operation's own table, it writes only if the operation is not a lookup,
    an insert carries one row, and an update is restricted by the operation's
    key column. *)
Definition well_addressed (c : call) (q : query) : Prop :=
  table_of q = Some (home_table c)
  /\ writes q = negb (is_lookup c)
  /\ inserts_one_row q = true
  /\ (updates_rows q = true ->
      exists column, key_column c = Some column /\ filters_on column q = true).

(** The six operations that return one record or [null]. *)
Definition single_record (c : call) : bool :=
  match c with
  | GetAllClinics | GetPatientsByClinicCode _ => false
  | GetClinicByCode _ | CreateClinic _ | UpdateClinic _ _ | GetPatientById _
  | CreatePatient _ | UpdatePatient _ _ => true
  end.

(** ** Sample engine, hosts and remotes *)

(** An engine to run examples on: it upper-cases the letters [a]..[z] and
    prints every integer in plain decimal.  It does what JavaScript does on
    every string whose characters outside ASCII have no upper-case form of
    their own, and on every safe integer. *)
#[global] Instance sample_engine : Engine.
Proof.
  refine {| toUpperCase := ascii_toUpperCase; Number_toString := pretty |}.
  - intros s _. reflexivity.
  - intros s. induction s as [|c s IH]; simpl; [reflexivity|].
    rewrite IH. destruct c as [[] [] [] [] [] [] [] []]; reflexivity.
  - intros n _. reflexivity.
Defined.

(** The Kelvin sign, U+212A: an upper-case letter whose lower-case form is
    the letter [k], and which upper-casing leaves as it is. *)
Definition kelvin_sign : string :=
  String (ascii_of_nat 226) (String (ascii_of_nat 132) (String (ascii_of_nat 170) "")).


(** A client that gives the same answer to every query. *)
Definition answering (answer : outcome value) : client unit :=
  {| perform := fun _ db => (answer, db) |}.

Definition online (cl : client unit) : state unit :=
  {| supabase := Some cl; remote := tt; issued := [] |}.

Definition offline : state unit :=
  {| supabase := None; remote := tt; issued := [] |}.

Definition clinic (code : string) (name : string) : gmap string value :=
  <["clinic_code" := VStr code]> (<["name" := VStr name]> ∅).

Definition backend_error : value :=
  VObj (<["message" := VStr "permission denied"]> ∅).

Definition network_failure : exn := Thrown (VStr "fetch failed").

(** One row whose code is in lower case. *)
Definition lower_case_row : gmap string value := clinic "abc" "Lower".

Definition lower_case_state : state unit :=
  online (answering (Returned (response (VArr [VObj lower_case_row]) VNull))).

(** Two rows, the second with the code [__proto__]. *)
Definition kept_row : gmap string value := clinic "A" "Kept".

Definition proto_row : gmap string value := clinic "__proto__" "Lost".

Definition proto_state : state unit :=
  online (answering
            (Returned (response (VArr [VObj kept_row; VObj proto_row]) VNull))).

(** Two patients of one clinic, and a response that carries both data and an
    error. *)
Definition patient (id : string) : value :=
  VObj (<["patient_id" := VStr id]> (<["clinic_code" := VStr "MOON"]> ∅)).

Definition two_patients : state unit :=
  online (answering
            (Returned (response (VArr [patient "p2"; patient "p1"]) VNull))).

Definition data_and_error : state unit :=
  online (answering (Returned (response (VObj kept_row) backend_error))).

(** A host with the package installed and both configuration values set. *)
Definition configured : environment unit :=
  {| supabase_js := ModuleFound (Some (fun _ _ _ => Returned (answering (Threw network_failure))));
     env_SUPABASE_URL := Some "https://example.supabase.co";
     env_SUPABASE_SERVICE_ROLE_KEY := Some "service-role-key" |}.

(** The same host with the key set to the empty string. *)
Definition empty_key : environment unit :=
  {| supabase_js := supabase_js configured;
     env_SUPABASE_URL := env_SUPABASE_URL configured;
     env_SUPABASE_SERVICE_ROLE_KEY := Some "" |}.

(** Three rows, the first and the last with the same code. *)
Definition other_row : gmap string value := clinic "B" "Other".

Definition later_row : gmap string value := clinic "A" "Later".

Definition duplicate_state : state unit :=
  online (answering
            (Returned (response (VArr [VObj kept_row; VObj other_row; VObj later_row])
                                VNull))).

(** A list of rows with a hole in it. *)
Definition holed_state : state unit :=
  online (answering
            (Returned (response (VArr [VObj kept_row; VNull; VObj other_row]) VNull))).

(** The configured host with a [createClient] that throws an error object,
    and with one that throws [null]. *)
Definition refusing : environment unit :=
  {| supabase_js := ModuleFound (Some (fun _ _ _ => Threw (Thrown backend_error)));
     env_SUPABASE_URL := env_SUPABASE_URL configured;
     env_SUPABASE_SERVICE_ROLE_KEY := env_SUPABASE_SERVICE_ROLE_KEY configured |}.

Definition throwing_null : environment unit :=
  {| supabase_js := ModuleFound (Some (fun _ _ _ => Threw (Thrown VNull)));
     env_SUPABASE_URL := env_SUPABASE_URL configured;
     env_SUPABASE_SERVICE_ROLE_KEY := env_SUPABASE_SERVICE_ROLE_KEY configured |}.

(** A remote that answers every query with the record [kept_row]. *)
Definition found_state : state unit :=
  online (answering (Returned (response (VObj kept_row) VNull))).

(** A remote on which the table [clinics] is out of reach while [patients]
    answers. *)
Definition clinics_down : client unit :=
  {| perform := fun q db =>
       (match table_of q with
        | Some table =>
            if String.eqb table "clinics"
            then Returned (response VNull backend_error)
            else Returned (response (VArr [patient "p2"; patient "p1"]) VNull)
        | None => Threw network_failure
        end, db) |}.

(** A response whose [error] is the empty string, and one whose [data] is a
    single record where a list was asked for. *)
Definition empty_string_error : state unit :=
  online (answering (Returned (response (VObj kept_row) (VStr "")))).

Definition record_for_list : state unit :=
  online (answering (Returned (response (VObj kept_row) VNull))).

(** * Properties *)

Section Properties.

Context {DB : Type} {E : Engine}.

Implicit Types (st : state DB) (cl : client DB) (c : call) (q : query).

(** ** Running an operation *)

Ltac unfold_ops :=
  unfold invoke, getClinicByCode, getAllClinics, createClinic, updateClinic,
    getPatientById, getPatientsByClinicCode, createPatient, updatePatient in *.

Ltac unfold_monad :=
  unfold bind, ret, throw, lift, try_catch, isSupabaseAvailable, await in *.

Ltac split_match :=
  match goal with
  | |- context [match ?x with _ => _ end] => destruct x eqn:?
  | H : context [match ?x with _ => _ end] |- _ => destruct x eqn:?
  end.

Ltac run := unfold_ops; unfold_monad; simpl in *; repeat (split_match; simpl in *; simplify_eq).

Lemma truthy_object fields : truthy (VObj fields) = true.
Proof. reflexivity. Qed.

Lemma invoke_returns c st : ∃ r, fst (invoke c st) = Returned r.
Proof. destruct c; run; eauto. Qed.

Lemma invoke_unavailable c st :
  supabase st = None -> invoke c st = (Returned (neutral c), st).
Proof. intros H. destruct c; unfold_ops; unfold_monad; rewrite H; reflexivity. Qed.

Ltac step_perform H :=
  match goal with
  | |- context [perform ?cl ?q ?d] =>
      let Hq := fresh "Hq" in
      pose proof (H q) as Hq;
      destruct (perform cl q d) as [[r|e] db'] eqn:?; simpl in *
  end.

Lemma destructure_members r data error :
  destructure r = Returned (data, error) ->
  get_member r "data" = Returned data /\ get_member r "error" = Returned error.
Proof.
  unfold destructure.
  destruct (get_member r "data"), (get_member r "error"); intros; simplify_eq; auto.
Qed.

Lemma destructure_throws r e :
  destructure r = Threw e -> get_member r "error" = Threw TypeError.
Proof. destruct r; simpl; intros; simplify_eq; reflexivity. Qed.

(** The query an operation has sent is the last of the issued ones; the
    lemmas below relate what the operation returns to the answer that very
    query got. *)
Ltac own_query Hq :=
  apply app_inv_head in Hq; injection Hq as Hq; subst.

Ltac use_answer :=
  match goal with
  | Hp : perform _ ?q _ = _, Hf : context [perform _ ?q _] |- _ => rewrite Hp in Hf
  end.

Lemma nothing_sent (l : list query) (q : query) : l ≠ (l ++ [q])%list.
Proof.
  intros H. apply (f_equal length) in H. rewrite length_app in H. simpl in H. lia.
Qed.

Lemma invoke_own_call_failed c st cl q :
  supabase st = Some cl ->
  issued (snd (invoke c st)) = (issued st ++ [q])%list ->
  failed (fst (perform cl q (remote st))) = true ->
  fst (invoke c st) = Returned (neutral c).
Proof.
  intros Hs Hq Hf. destruct st as [h db iss]; simpl in *; subst h.
  destruct c; unfold_ops; unfold_monad; simpl in *;
    try (destruct (call_toUpperCase _); simpl in *; [|reflexivity]);
    match goal with
    | |- context [perform cl ?q0 db] =>
        destruct (perform cl q0 db) as [[r|e] db'] eqn:Hp; simpl in *
    end;
    try reflexivity;
    (destruct (destructure r) as [[data error]|] eqn:Hd; simpl in *; [|reflexivity]);
    apply destructure_members in Hd as [_ He];
    (destruct (truthy error) eqn:Ht; simpl in *; [reflexivity|]);
    repeat (split_match; simpl in *; simplify_eq);
    try (own_query Hq; rewrite Hp in Hf; simpl in Hf; rewrite He in Hf; congruence).
Qed.

Lemma invoke_nothing_sent c st cl :
  supabase st = Some cl ->
  issued (snd (invoke c st)) = issued st ->
  invoke c st = (Returned (neutral c), st).
Proof.
  intros Hs. destruct st as [h db iss]; simpl in *; subst h.
  destruct c; unfold_ops; unfold_monad; simpl;
    try (destruct (call_toUpperCase _); simpl; [|reflexivity]);
    repeat (split_match; simpl in *; simplify_eq);
    intros Hq; symmetry in Hq; destruct (nothing_sent _ _ Hq).
Qed.

(** ** Case normalisation *)

Lemma upper_ascii_not_lower (ch : ascii) : is_lower (upper_ascii ch) = false.
Proof. destruct ch as [[] [] [] [] [] [] [] []]; reflexivity. Qed.

Lemma upper_ascii_swap_case (ch : ascii) : upper_ascii (swap_case ch) = upper_ascii ch.
Proof. destruct ch as [[] [] [] [] [] [] [] []]; reflexivity. Qed.

Lemma upper_ascii_same_or_swapped (ch : ascii) :
  upper_ascii ch = ch \/ upper_ascii ch = swap_case ch.
Proof. destruct ch as [[] [] [] [] [] [] [] []]; auto. Qed.

Lemma is_ascii_swap_case (ch : ascii) :
  (nat_of_ascii ch <? 128)%nat = true -> (nat_of_ascii (swap_case ch) <? 128)%nat = true.
Proof. destruct ch as [[] [] [] [] [] [] [] []]; intros H; try reflexivity; discriminate H. Qed.

Lemma ascii_toUpperCase_modulo_case (a b : string) :
  same_modulo_case a b -> ascii_toUpperCase a = ascii_toUpperCase b.
Proof.
  induction 1 as [|ch s t _ IH|ch s t _ IH]; simpl.
  - reflexivity.
  - rewrite IH. reflexivity.
  - rewrite upper_ascii_swap_case, IH. reflexivity.
Qed.

Lemma ascii_toUpperCase_same_modulo_case (s : string) :
  same_modulo_case s (ascii_toUpperCase s).
Proof.
  induction s as [|ch s IH]; simpl; [constructor|].
  destruct (upper_ascii_same_or_swapped ch) as [-> | ->]; constructor; exact IH.
Qed.

Lemma ascii_toUpperCase_idempotent (s : string) :
  ascii_toUpperCase (ascii_toUpperCase s) = ascii_toUpperCase s.
Proof.
  induction s as [|ch s IH]; simpl; [reflexivity|]. rewrite IH. f_equal.
  unfold upper_ascii at 1. rewrite upper_ascii_not_lower. reflexivity.
Qed.

Lemma ascii_toUpperCase_is_ascii (s : string) :
  is_ascii s = true -> is_ascii (ascii_toUpperCase s) = true.
Proof.
  induction s as [|ch s IH]; simpl; [reflexivity|].
  intros H. apply andb_prop in H as [Hch Hs]. rewrite (IH Hs), andb_true_r.
  destruct (upper_ascii_same_or_swapped ch) as [-> | ->];
    [exact Hch|apply is_ascii_swap_case; exact Hch].
Qed.

Lemma same_modulo_case_is_ascii (a b : string) :
  same_modulo_case a b -> is_ascii a = true -> is_ascii b = true.
Proof.
  induction 1 as [|ch s t _ IH|ch s t _ IH]; simpl; intros H; try reflexivity;
    apply andb_prop in H as [Hch Hs]; rewrite (IH Hs), andb_true_r;
    [exact Hch|apply is_ascii_swap_case; exact Hch].
Qed.

(** On ASCII codes the engine's upper-casing ignores the case of letters,
    changes nothing but the case of letters, and is idempotent. *)
Lemma toUpperCase_modulo_case (a b : string) :
  is_ascii a = true -> same_modulo_case a b -> toUpperCase a = toUpperCase b.
Proof.
  intros Ha Hab.
  rewrite (toUpperCase_ascii a Ha),
    (toUpperCase_ascii b (same_modulo_case_is_ascii a b Hab Ha)).
  apply ascii_toUpperCase_modulo_case. exact Hab.
Qed.

Lemma toUpperCase_same_modulo_case (s : string) :
  is_ascii s = true -> same_modulo_case s (toUpperCase s).
Proof.
  intros Hs. rewrite (toUpperCase_ascii s Hs). apply ascii_toUpperCase_same_modulo_case.
Qed.

Lemma toUpperCase_idempotent (s : string) :
  is_ascii s = true -> toUpperCase (toUpperCase s) = toUpperCase s.
Proof.
  intros Hs. rewrite (toUpperCase_ascii s Hs).
  rewrite (toUpperCase_ascii _ (ascii_toUpperCase_is_ascii s Hs)).
  apply ascii_toUpperCase_idempotent.
Qed.

(** ** The queries an operation issues *)

Lemma code_query_issued st cl (s : string) :
  supabase st = Some cl ->
  issued (snd (getClinicByCode (VStr s) st))
  = (issued st ++ [[From "clinics"; Select (Some "*");
                   Eq "clinic_code" (VStr (toUpperCase s)); Single]])%list
  /\ (forall updates,
        issued (snd (updateClinic (VStr s) updates st))
        = (issued st ++ [[From "clinics"; Update updates;
                         Eq "clinic_code" (VStr (toUpperCase s));
                         Select None; Single]])%list)
  /\ issued (snd (getPatientsByClinicCode (VStr s) st))
     = (issued st ++ [[From "patients"; Select (Some "*");
                      Eq "clinic_code" (VStr (toUpperCase s))]])%list.
Proof.
  intros Hs. destruct st as [h db iss]; simpl in *; subst h.
  repeat split; intros; run; reflexivity.
Qed.

Lemma id_query_issued st cl (patientId : value) :
  supabase st = Some cl ->
  issued (snd (getPatientById patientId st))
  = (issued st ++ [[From "patients"; Select (Some "*");
                   Eq "patient_id" patientId; Single]])%list
  /\ (forall updates,
        issued (snd (updatePatient patientId updates st))
        = (issued st ++ [[From "patients"; Update updates;
                         Eq "patient_id" patientId; Select None; Single]])%list).
Proof.
  intros Hs. destruct st as [h db iss]; simpl in *; subst h.
  repeat split; intros; run; reflexivity.
Qed.

(** ** The mapping built by [getAllClinics] *)

Lemma proto_setter_own (o : object) (v : value) : own (proto_setter o v) = own o.
Proof. destruct v; reflexivity. Qed.

Lemma set_member_ordinary (o : object) (key : string) (v : value) :
  key ≠ "__proto__" -> set_member o key v = define_own o key v.
Proof.
  intros Hk. unfold set_member.
  rewrite (bool_decide_eq_false_2 _ Hk). reflexivity.
Qed.

(** Every binding of the mapping was there before the loop, or files one of
    the rows under that row's own [clinic_code], converted to a key. *)
Lemma forEach_clinic_bindings (rows : list value) (o o' : object) :
  forEach_clinic rows o = Returned o' ->
  forall k v, own o' !! k = Some v ->
    own o !! k = Some v
    \/ (v ∈ rows /\ exists code,
          get_member v "clinic_code" = Returned code /\ ToString code = Returned k).
Proof.
  revert o. induction rows as [|row rest IH]; simpl; intros o Hrun k v Hk.
  - simplify_eq. auto.
  - destruct (get_member row "clinic_code") as [code|] eqn:Hcode; [|discriminate].
    destruct (ToString code) as [key|] eqn:Hkey; [|discriminate].
    destruct (IH _ Hrun k v Hk) as [Hold|[Hin Hex]].
    + unfold set_member in Hold.
      destruct (_ && _) in Hold.
      * rewrite proto_setter_own in Hold. auto.
      * simpl in Hold. destruct (decide (key = k)) as [<-|Hne].
        -- rewrite lookup_insert_eq in Hold. simplify_eq.
           right. split; [left|eauto].
        -- rewrite lookup_insert_ne in Hold by done. auto.
    + right. split; [right; exact Hin|exact Hex].
Qed.

(** On records none of which is filed under [__proto__], the loop is a left
    fold of insertions: a later row replaces an earlier one with its key.
    Each record comes with the key its code converts to. *)
Lemma forEach_clinic_records (kfs : list (string * gmap string value)) (o : object) :
  Forall (fun kf => clinic_key kf.2 = Returned kf.1 /\ kf.1 ≠ "__proto__") kfs ->
  forEach_clinic ((fun kf => VObj kf.2) <$> kfs) o
  = Returned {| own := foldl (fun m kf => <[kf.1 := VObj kf.2]> m) (own o) kfs;
                proto := proto o |}.
Proof.
  intros Hkfs. revert o. induction Hkfs as [|[k f] kfs [Hk Hne] _ IH]; intros o.
  - destruct o; reflexivity.
  - simpl in *. unfold clinic_key in Hk. rewrite Hk.
    rewrite set_member_ordinary by done.
    rewrite IH. reflexivity.
Qed.

Lemma getAllClinics_records st cl r db' (kfs : list (string * gmap string value)) error :
  supabase st = Some cl ->
  perform cl [From "clinics"; Select (Some "*")] (remote st) = (Returned r, db') ->
  get_member r "data" = Returned (VArr ((fun kf => VObj kf.2) <$> kfs)) ->
  get_member r "error" = Returned error ->
  truthy error = false ->
  Forall (fun kf => clinic_key kf.2 = Returned kf.1 /\ kf.1 ≠ "__proto__") kfs ->
  fst (getAllClinics st)
  = Returned {| own := foldl (fun m kf => <[kf.1 := VObj kf.2]> m) ∅ kfs;
                proto := ObjectPrototype |}.
Proof.
  intros Hs Hp Hd He Ht Hkfs. destruct st as [h db iss]; simpl in *; subst h.
  unfold getAllClinics; unfold_monad; simpl. rewrite Hp. simpl.
  unfold destructure. rewrite Hd, He. simpl. rewrite Ht. simpl.
  rewrite (forEach_clinic_records kfs empty_object Hkfs). reflexivity.
Qed.

(** Rows with codes [A], [B], [A]: two keys, and [A] holds the last row. *)
Lemma getAllClinics_duplicate_code st cl r db' (a1 b a2 : gmap string value) :
  supabase st = Some cl ->
  perform cl [From "clinics"; Select (Some "*")] (remote st) = (Returned r, db') ->
  get_member r "data" = Returned (VArr [VObj a1; VObj b; VObj a2]) ->
  get_member r "error" = Returned VNull ->
  clinic_key a1 = Returned "A" ->
  clinic_key b = Returned "B" ->
  clinic_key a2 = Returned "A" ->
  exists o, fst (getAllClinics st) = Returned o
    /\ size (own o) = 2
    /\ own o !! "A" = Some (VObj a2)
    /\ own o !! "B" = Some (VObj b).
Proof.
  intros Hs Hp Hd He Ha1 Hb Ha2.
  eexists. split.
  - apply (getAllClinics_records st cl r db' [("A", a1); ("B", b); ("A", a2)] VNull);
      [exact Hs|exact Hp|exact Hd|exact He|reflexivity|].
    repeat apply Forall_cons_2; try apply Forall_nil_2; simpl;
      (split; [assumption|discriminate]).
  - cbn [own foldl fst snd]. split; [|split].
    + rewrite insert_insert_ne by discriminate.
      rewrite insert_insert_eq.
      rewrite map_size_insert_None;
        [|rewrite lookup_insert_ne by discriminate; apply lookup_empty].
      rewrite map_size_insert_None by apply lookup_empty. reflexivity.
    + apply lookup_insert_eq.
    + rewrite lookup_insert_ne by discriminate. apply lookup_insert_eq.
Qed.

Lemma getAllClinics_result st (o : object) :
  fst (getAllClinics st) = Returned o ->
  o = empty_object \/ exists rows, forEach_clinic rows empty_object = Returned o.
Proof.
  destruct st as [h db iss]. intros Hrun. run; eauto.
Qed.

(** ** The module-level variable *)

Lemma available_iff_handle st :
  fst (isSupabaseAvailable st) = Returned true <-> supabase st ≠ None.
Proof.
  unfold isSupabaseAvailable; simpl. split.
  - intros H. injection H as H. apply bool_decide_eq_true_1 in H. exact H.
  - intros H. rewrite (bool_decide_eq_true_2 _ H). reflexivity.
Qed.

Lemma unavailable_iff_no_handle st :
  fst (isSupabaseAvailable st) = Returned false <-> supabase st = None.
Proof.
  unfold isSupabaseAvailable; simpl. destruct (supabase st); simpl.
  - split; discriminate.
  - split; reflexivity.
Qed.

Lemma or_empty_nonempty (v : option string) :
  or_empty v ≠ "" <-> exists s, v = Some s /\ s ≠ "".
Proof.
  destruct v as [s|]; simpl.
  - destruct (String.eqb_spec s "") as [->|Hne]; split.
    + intros H. destruct H. reflexivity.
    + intros (s & Hs & Hne). simplify_eq.
    + eauto.
    + intros _. exact Hne.
  - split; [intros H; destruct H; reflexivity | intros (s & Hs & _); discriminate].
Qed.

Lemma or_empty_some (s : string) : s ≠ "" -> or_empty (Some s) = s.
Proof. intros Hne. simpl. destruct (String.eqb_spec s ""); [contradiction|reflexivity]. Qed.

Lemma loaded_handle (e : environment DB) cl :
  last (supabase_assignments e) = Some cl <->
  exists create url key,
    supabase_js e = ModuleFound (Some create)
    /\ env_SUPABASE_URL e = Some url /\ url ≠ ""
    /\ env_SUPABASE_SERVICE_ROLE_KEY e = Some key /\ key ≠ ""
    /\ create url key {| autoRefreshToken := false; persistSession := false |}
       = Returned cl.
Proof.
  unfold supabase_assignments, createClient, SUPABASE_URL, SUPABASE_SERVICE_ROLE_KEY.
  split.
  - destruct (supabase_js e) as [|[create|]]; try discriminate.
    destruct (String.eqb_spec (or_empty (env_SUPABASE_URL e)) "") as [|Hu];
      simpl; [discriminate|].
    destruct (String.eqb_spec (or_empty (env_SUPABASE_SERVICE_ROLE_KEY e)) "") as [|Hk];
      simpl; [discriminate|].
    apply or_empty_nonempty in Hu as (url & Hurl & Hu).
    apply or_empty_nonempty in Hk as (key & Hkey & Hk).
    rewrite Hurl, Hkey, (or_empty_some url Hu), (or_empty_some key Hk).
    destruct (create url key _) as [cl'|] eqn:Hc; [|discriminate].
    intros H. injection H as ->. exists create, url, key. auto 10.
  - intros (create & url & key & -> & -> & Hu & -> & Hk & Hc).
    rewrite (or_empty_some url Hu), (or_empty_some key Hk).
    destruct (String.eqb_spec url ""); [contradiction|].
    destruct (String.eqb_spec key ""); [contradiction|].
    simpl. rewrite Hc. reflexivity.
Qed.

Lemma assigned_at_most_once (e : environment DB) :
  (length (supabase_assignments e) <= 1)%nat.
Proof.
  unfold supabase_assignments.
  destruct (createClient e) as [create|]; simpl; [|lia].
  destruct (_ && _); simpl; [|lia].
  destruct (create _ _ _); simpl; lia.
Qed.

Lemma invoke_keeps_handle c st : supabase (snd (invoke c st)) = supabase st.
Proof. destruct st as [h db iss]. destruct c; run; reflexivity. Qed.

Lemma invoke_all_keeps_handle (cs : list call) st :
  supabase (invoke_all cs st) = supabase st.
Proof.
  revert st. induction cs as [|c cs IH]; intros st; simpl; [reflexivity|].
  rewrite IH. apply invoke_keeps_handle.
Qed.

Lemma non_string_throws (v : value) :
  (forall s, v ≠ VStr s) -> call_toUpperCase v = Threw TypeError.
Proof. intros Hv. destruct v; try reflexivity. destruct (Hv s). reflexivity. Qed.


(** ** Further lemmas on queries and on the mapping *)

Lemma invoke_issues c st :
  issued (snd (invoke c st)) = issued st
  \/ exists q, issued (snd (invoke c st)) = (issued st ++ [q])%list
               /\ well_addressed c q.
Proof.
  destruct st as [h db iss].
  destruct c; run;
    first [ left; reflexivity
          | right; eexists; split; [reflexivity|];
            unfold well_addressed; simpl;
            repeat split; try discriminate; intros _; eexists; split; reflexivity ].
Qed.

Lemma invoke_issues_count c st cl :
  supabase st = Some cl ->
  issued (snd (invoke c st)) = issued st /\ code_unusable c = true
  \/ exists q, issued (snd (invoke c st)) = (issued st ++ [q])%list
               /\ code_unusable c = false.
Proof.
  intros Hs. destruct st as [h db iss]; simpl in *; subst h.
  destruct c; try (destruct clinicCode); run;
    first [ left; split; reflexivity | right; eexists; split; reflexivity ].
Qed.

Lemma invoke_all_unavailable (cs : list call) st :
  supabase st = None -> invoke_all cs st = st.
Proof.
  intros Hs. induction cs as [|c cs IH]; simpl; [reflexivity|].
  rewrite (invoke_unavailable c st Hs). exact IH.
Qed.

Lemma set_member_size (o : object) (key : string) (v : value) :
  (size (own (set_member o key v)) <= S (size (own o)))%nat.
Proof.
  unfold set_member. destruct (_ && _).
  - rewrite proto_setter_own. lia.
  - simpl. rewrite map_size_insert. destruct (own o !! key); simpl; lia.
Qed.

Lemma size_empty_object : size (own empty_object) = 0%nat.
Proof. apply map_size_empty. Qed.

Lemma forEach_clinic_size (rows : list value) (o o' : object) :
  forEach_clinic rows o = Returned o' ->
  (size (own o') <= size (own o) + length rows)%nat.
Proof.
  revert o. induction rows as [|row rest IH]; simpl; intros o Hrun.
  - simplify_eq. lia.
  - destruct (get_member row "clinic_code") as [code|]; [|discriminate].
    destruct (ToString code) as [key|]; [|discriminate].
    apply IH in Hrun. pose proof (set_member_size o key row). lia.
Qed.

Lemma forEach_clinic_throws (rows : list value) (o : object) row e :
  row ∈ rows ->
  get_member row "clinic_code" = Threw e ->
  exists e', forEach_clinic rows o = Threw e'.
Proof.
  intros Hin Hrow. revert o. induction Hin as [row rest|row other rest _ IH]; intros o; simpl.
  - rewrite Hrow. eauto.
  - destruct (get_member other "clinic_code") as [code|]; [|eauto].
    destruct (ToString code) as [key|]; [|eauto]. apply IH. exact Hrow.
Qed.

Lemma foldl_insert_lookup (kfs : list (string * gmap string value))
    (m : gmap string value) (k : string) :
  foldl (fun m kf => <[kf.1 := VObj kf.2]> m) m kfs !! k
  = match last (filter (fun kf => kf.1 = k) kfs) with
    | Some kf => Some (VObj kf.2)
    | None => m !! k
    end.
Proof.
  revert m. induction kfs as [|kf kfs IH]; intros m; simpl; [reflexivity|].
  rewrite IH, filter_cons. destruct (decide (kf.1 = k)) as [Hk|Hk].
  - rewrite last_cons. destruct (last (filter _ kfs)); [reflexivity|].
    rewrite <- Hk. apply lookup_insert_eq.
  - destruct (last (filter _ kfs)); [reflexivity|].
    apply lookup_insert_ne. exact Hk.
Qed.

Lemma forEach_clinic_no_own_proto (rows : list value) (o o' : object) :
  (forall fields, VObj fields ∈ rows -> fields !! "__proto__" = None) ->
  own o !! "__proto__" = None ->
  reaches_proto_accessor (proto o) = true ->
  forEach_clinic rows o = Returned o' ->
  own o' !! "__proto__" = None.
Proof.
  revert o. induction rows as [|row rest IH]; simpl; intros o Hrows Hown Hacc Hrun.
  - simplify_eq. exact Hown.
  - destruct (get_member row "clinic_code") as [code|] eqn:Hcode; [|discriminate].
    destruct (ToString code) as [key|]; [|discriminate].
    assert (Hrest : forall fields, VObj fields ∈ rest -> fields !! "__proto__" = None)
      by (intros fields Hin; apply Hrows; right; exact Hin).
    unfold set_member in Hrun.
    destruct (decide (key = "__proto__")) as [->|Hne].
    + rewrite bool_decide_eq_true_2 in Hrun by reflexivity.
      rewrite (bool_decide_eq_true_2 _ Hown), Hacc in Hrun. simpl in Hrun.
      apply (IH _ Hrest) in Hrun; [exact Hrun| |].
      * rewrite proto_setter_own. exact Hown.
      * destruct row; simpl in *; try exact Hacc; try discriminate; try reflexivity.
        apply bool_decide_eq_true_2. apply Hrows. left.
    + rewrite (bool_decide_eq_false_2 _ Hne) in Hrun. simpl in Hrun.
      apply (IH _ Hrest) in Hrun; [exact Hrun| |exact Hacc].
      simpl. rewrite lookup_insert_ne by exact Hne. exact Hown.
Qed.

Lemma invoke_own_call_answered c st cl q r db' data error :
  supabase st = Some cl ->
  issued (snd (invoke c st)) = (issued st ++ [q])%list ->
  perform cl q (remote st) = (Returned r, db') ->
  get_member r "data" = Returned data ->
  get_member r "error" = Returned error ->
  truthy error = false ->
  remote (snd (invoke c st)) = db'
  /\ (single_record c = true -> fst (invoke c st) = Returned (Value data))
  /\ (forall code, c = GetPatientsByClinicCode code ->
      fst (invoke c st) = Returned (Value (js_or data (VArr [])))).
Proof.
  intros Hs Hq Hp Hd He Ht. destruct st as [h db iss]; simpl in *; subst h.
  assert (Hdes : destructure r = Returned (data, error))
    by (unfold destructure; rewrite Hd, He; reflexivity).
  destruct c; unfold_ops; unfold_monad; simpl in *;
    try (destruct (call_toUpperCase _); simpl in *; [|destruct (nothing_sent _ _ Hq)]);
    match goal with
    | |- context [perform cl ?q0 db] =>
        destruct (perform cl q0 db) as [[r0|e0] db0] eqn:Hp0; simpl in *
    end;
    repeat (split_match; simpl in *; simplify_eq);
    own_query Hq; rewrite Hp in Hp0; simplify_eq;
    repeat split; try discriminate; try reflexivity; intros; simplify_eq;
    try reflexivity; congruence.
Qed.

Lemma module_load_state (e : environment DB) (db : DB) st :
  module_load e db = Returned st ->
  st = {| supabase := last (supabase_assignments e); remote := db; issued := [] |}
  /\ exists lines, load_console e = Returned lines.
Proof.
  unfold module_load. destruct (load_console e) as [lines|x]; intros H; simplify_eq.
  split; [reflexivity|eauto].
Qed.

Lemma bootstrap_succeeds_loads (e : environment DB) (db : DB) :
  bootstrap_succeeds e -> exists st, module_load e db = Returned st.
Proof.
  intros (create & url & key & cl & Hreq & Hurl & Hu & Hkey & Hk & Hc).
  unfold module_load, load_console, createClient, SUPABASE_URL, SUPABASE_SERVICE_ROLE_KEY.
  rewrite Hreq, Hurl, Hkey, (or_empty_some url Hu), (or_empty_some key Hk).
  destruct (String.eqb_spec url ""); [contradiction|].
  destruct (String.eqb_spec key ""); [contradiction|].
  simpl. rewrite Hc. eauto.
Qed.

Lemma handle_iff_bootstrap (e : environment DB) :
  last (supabase_assignments e) ≠ None <-> bootstrap_succeeds e.
Proof.
  unfold bootstrap_succeeds. split.
  - destruct (last (supabase_assignments e)) as [cl|] eqn:Hl; [|congruence].
    intros _. apply loaded_handle in Hl as (create & url & key & H).
    exists create, url, key, cl. exact H.
  - intros (create & url & key & cl & H).
    assert (Hl : last (supabase_assignments e) = Some cl)
      by (apply loaded_handle; exists create, url, key; exact H).
    rewrite Hl. discriminate.
Qed.

(** Whatever the engine, once it leaves the Kelvin sign as it is (it has no
    upper-case form but itself), [getClinicByCode] sends different queries
    for the Kelvin sign and for the letter [k]. *)
Lemma kelvin_sign_queried_apart st cl :
  supabase st = Some cl ->
  toUpperCase kelvin_sign = kelvin_sign ->
  issued (snd (getClinicByCode (VStr kelvin_sign) st))
  ≠ issued (snd (getClinicByCode (VStr "k") st)).
Proof.
  intros Hs Hkelvin Heq.
  rewrite (proj1 (code_query_issued st cl kelvin_sign Hs)) in Heq.
  rewrite (proj1 (code_query_issued st cl "k" Hs)) in Heq.
  apply app_inv_head in Heq. injection Heq as Heq.
  rewrite Hkelvin, (toUpperCase_ascii "k" eq_refl) in Heq. discriminate Heq.
Qed.

(** ** The claims of the specification *)

(** C1: every operation of the facade ends in a return value and never lets
    an exception reach its caller, whatever the remote call does; and when
    the operation's own remote call fails, by answering with an error object
    or by throwing, the operation returns its neutral value: [null] for the
    single-record operations, [[]] for [getPatientsByClinicCode], [{}] for
    [getAllClinics].  Nothing is assumed of the answers to other queries. *)
Theorem failure_gives_neutral_value c st :
  (exists r, fst (invoke c st) = Returned r)
  /\ (forall cl q,
        supabase st = Some cl ->
        issued (snd (invoke c st)) = (issued st ++ [q])%list ->
        failed (fst (perform cl q (remote st))) = true ->
        fst (invoke c st) = Returned (neutral c)).
Proof.
  split.
  - apply invoke_returns.
  - intros cl q Hs Hq Hf. exact (invoke_own_call_failed c st cl q Hs Hq Hf).
Qed.

(** C2: when [isSupabaseAvailable()] is false, that is when the handle is
    [null], every operation returns its neutral value at once and awaits no
    query: the state, and with it the list of issued queries and the remote,
    is left as it was. *)
Theorem unavailable_returns_neutral_without_remote_call c st :
  fst (isSupabaseAvailable st) = Returned false ->
  supabase st = None
  /\ fst (invoke c st) = Returned (neutral c)
  /\ issued (snd (invoke c st)) = issued st
  /\ snd (invoke c st) = st.
Proof.
  intros Hoff. apply unavailable_iff_no_handle in Hoff.
  rewrite (invoke_unavailable c st Hoff). auto.
Qed.

(** C8: the handle is assigned at most once while the module loads, and no
    operation of the facade assigns it: after any sequence of calls the
    handle is the one the load left, [isSupabaseAvailable()] gives the same
    answer as before the calls, and asking it changes nothing. *)
Theorem availability_fixed_after_load (e : environment DB) (db : DB) (cs : list call) st :
  (length (supabase_assignments e) <= 1)%nat
  /\ (forall loaded, module_load e db = Returned loaded ->
      supabase (invoke_all cs loaded) = supabase loaded
      /\ supabase loaded = last (supabase_assignments e))
  /\ supabase (invoke_all cs st) = supabase st
  /\ fst (isSupabaseAvailable (invoke_all cs st)) = fst (isSupabaseAvailable st)
  /\ snd (isSupabaseAvailable st) = st.
Proof.
  split; [apply assigned_at_most_once|].
  split.
  { intros loaded Hload. split; [apply invoke_all_keeps_handle|].
    apply module_load_state in Hload as [-> _]. reflexivity. }
  split; [apply invoke_all_keeps_handle|].
  split; [|reflexivity].
  unfold isSupabaseAvailable; simpl. rewrite invoke_all_keeps_handle. reflexivity.
Qed.

(** C9, as amended: an error reported by the backend takes precedence over
    data: when the answer to the operation's own remote call carries an
    error that is truthy, as every error object is, the operation returns
    its neutral value, whatever the [data] member of the same response
    holds. *)
Theorem error_takes_precedence_over_data c st cl q r error :
  supabase st = Some cl ->
  issued (snd (invoke c st)) = (issued st ++ [q])%list ->
  fst (perform cl q (remote st)) = Returned r ->
  get_member r "error" = Returned error ->
  truthy error = true ->
  fst (invoke c st) = Returned (neutral c).
Proof.
  intros Hs Hq Hr He Ht. apply (invoke_own_call_failed c st cl q Hs Hq).
  rewrite Hr. simpl. rewrite He. exact Ht.
Qed.

(** C10: with the backend available, a code argument that cannot be
    upper-cased (anything that is not a string, such as [null] or
    [undefined]) makes [getClinicByCode] and [updateClinic] return [null] and
    [getPatientsByClinicCode] return [[]]: the exception raised by the
    normalisation is caught inside the operation, and no query is awaited. *)
Theorem non_string_code_gives_neutral_value st cl (clinicCode updates : value) :
  supabase st = Some cl ->
  (forall s, clinicCode ≠ VStr s) ->
  getClinicByCode clinicCode st = (Returned VNull, st)
  /\ updateClinic clinicCode updates st = (Returned VNull, st)
  /\ getPatientsByClinicCode clinicCode st = (Returned (VArr []), st).
Proof.
  intros Hs Hcode. apply non_string_throws in Hcode.
  destruct st as [h db iss]; simpl in *; subst h.
  unfold_ops; unfold_monad; simpl. rewrite Hcode. auto.
Qed.

(** C4, as amended: the codes used as query keys by [getClinicByCode],
    [updateClinic] and [getPatientsByClinicCode] are upper-cased before they
    are sent: the key is what the engine's [toUpperCase] makes of the code,
    it contains none of the letters [a]..[z], and for an ASCII code it
    differs from the code in the case of letters only.  [getAllClinics]
    applies no case normalisation: whatever it files in its mapping is one
    of the rows the remote returned, filed under that row's own
    [clinic_code] as returned; and when the rows are records none of which
    is filed under [__proto__], every one of their codes is a key of the
    mapping, holding the last row with that code. *)
Theorem query_keys_upper_cased_mapping_keys_as_returned st cl (s : string) :
  supabase st = Some cl ->
  upper_normal (toUpperCase s) = true
  /\ (is_ascii s = true -> same_modulo_case s (toUpperCase s))
  /\ issued (snd (getClinicByCode (VStr s) st))
     = (issued st ++ [[From "clinics"; Select (Some "*");
                       Eq "clinic_code" (VStr (toUpperCase s)); Single]])%list
  /\ (forall updates,
        issued (snd (updateClinic (VStr s) updates st))
        = (issued st ++ [[From "clinics"; Update updates;
                          Eq "clinic_code" (VStr (toUpperCase s));
                          Select None; Single]])%list)
  /\ issued (snd (getPatientsByClinicCode (VStr s) st))
     = (issued st ++ [[From "patients"; Select (Some "*");
                       Eq "clinic_code" (VStr (toUpperCase s))]])%list
  /\ (forall r db' rows o k v,
        perform cl [From "clinics"; Select (Some "*")] (remote st) = (Returned r, db') ->
        get_member r "data" = Returned (VArr rows) ->
        fst (getAllClinics st) = Returned o ->
        own o !! k = Some v ->
        v ∈ rows
        /\ exists code,
             get_member v "clinic_code" = Returned code /\ ToString code = Returned k)
  /\ (forall r db' (kfs : list (string * gmap string value)) error,
        perform cl [From "clinics"; Select (Some "*")] (remote st) = (Returned r, db') ->
        get_member r "data" = Returned (VArr ((fun kf => VObj kf.2) <$> kfs)) ->
        get_member r "error" = Returned error ->
        truthy error = false ->
        Forall (fun kf => clinic_key kf.2 = Returned kf.1 /\ kf.1 ≠ "__proto__") kfs ->
        exists o, fst (getAllClinics st) = Returned o
          /\ forall k, own o !! k
                       = (fun kf => VObj kf.2) <$> last (filter (fun kf => kf.1 = k) kfs)).
Proof.
  intros Hs. split; [apply toUpperCase_upper_normal|].
  split; [apply toUpperCase_same_modulo_case|].
  destruct (code_query_issued st cl s Hs) as (Hget & Hupd & Hpat).
  split; [exact Hget|]. split; [exact Hupd|]. split; [exact Hpat|]. split.
  - intros r db' rows o k v Hp Hd Hrun Hk.
    destruct st as [h db iss]; simpl in *; subst h.
    unfold getAllClinics, destructure in Hrun; unfold_monad; simpl in Hrun.
    rewrite Hp in Hrun; simpl in Hrun. rewrite Hd in Hrun; simpl in Hrun.
    destruct (get_member r "error") as [error|]; simpl in Hrun;
      [|simplify_eq; simpl in Hk; rewrite lookup_empty in Hk; discriminate].
    destruct (truthy error); simpl in Hrun;
      [simplify_eq; simpl in Hk; rewrite lookup_empty in Hk; discriminate|].
    destruct (forEach_clinic rows empty_object) as [o'|] eqn:Hloop; simpl in Hrun;
      [|simplify_eq; simpl in Hk; rewrite lookup_empty in Hk; discriminate].
    simplify_eq.
    destruct (forEach_clinic_bindings rows _ _ Hloop k v Hk) as [Hold|Hnew].
    + simpl in Hold. rewrite lookup_empty in Hold. discriminate.
    + exact Hnew.
  - intros r db' kfs error Hp Hd He Ht Hkfs. eexists. split.
    + exact (getAllClinics_records st cl r db' kfs error Hs Hp Hd He Ht Hkfs).
    + intros k. cbn [own].
      rewrite foldl_insert_lookup. destruct (last _); [reflexivity|apply lookup_empty].
Qed.

(** C6, as amended: two codes with the same upper-case form make
    [getClinicByCode] behave identically: the same query, matching on the
    upper-cased code, is sent, so from the same state the two calls give the
    same result and leave the same state.  Two ASCII codes that differ only
    in the case of their letters are such a pair, and for an ASCII code the
    key sent is the code with its letters in upper case.  [getPatientById]
    matches on the identifier exactly as it was supplied. *)
Theorem getClinicByCode_ignores_case st (a b : string) :
  (toUpperCase a = toUpperCase b ->
   getClinicByCode (VStr a) st = getClinicByCode (VStr b) st)
  /\ (is_ascii a = true -> same_modulo_case a b ->
      toUpperCase a = toUpperCase b
      /\ getClinicByCode (VStr a) st = getClinicByCode (VStr b) st)
  /\ (forall cl, supabase st = Some cl ->
        issued (snd (getClinicByCode (VStr a) st))
        = (issued st ++ [[From "clinics"; Select (Some "*");
                          Eq "clinic_code" (VStr (toUpperCase a)); Single]])%list
        /\ upper_normal (toUpperCase a) = true
        /\ (is_ascii a = true -> same_modulo_case a (toUpperCase a)))
  /\ (forall cl patientId, supabase st = Some cl ->
        issued (snd (getPatientById patientId st))
        = (issued st ++ [[From "patients"; Select (Some "*");
                          Eq "patient_id" patientId; Single]])%list).
Proof.
  assert (Heq : toUpperCase a = toUpperCase b ->
                getClinicByCode (VStr a) st = getClinicByCode (VStr b) st).
  { intros Hab. unfold getClinicByCode, call_toUpperCase. rewrite Hab. reflexivity. }
  split; [exact Heq|]. split; [|split].
  - intros Ha Hab. pose proof (toUpperCase_modulo_case a b Ha Hab) as Hup.
    split; [exact Hup|exact (Heq Hup)].
  - intros cl Hs. split; [apply (code_query_issued st cl a Hs)|].
    split; [apply toUpperCase_upper_normal|apply toUpperCase_same_modulo_case].
  - intros cl patientId Hs. apply (id_query_issued st cl patientId Hs).
Qed.

(** C7, as amended: [getPatientsByClinicCode] never throws and never returns
    [null] or [undefined].  It returns the empty sequence when the backend
    is unavailable, when its own remote call fails, and when the call
    succeeds with a [data] member that is falsy ([null], missing); when the
    call succeeds with a truthy [data] it returns that [data] as it is, so
    that rows come back in the order received. *)
Theorem getPatientsByClinicCode_returns_sequence st (clinicCode : value) :
  (exists v, fst (getPatientsByClinicCode clinicCode st) = Returned v
             /\ v ≠ VNull /\ v ≠ VUndefined)
  /\ (supabase st = None ->
      fst (getPatientsByClinicCode clinicCode st) = Returned (VArr []))
  /\ (forall cl q, supabase st = Some cl ->
        issued (snd (getPatientsByClinicCode clinicCode st)) = (issued st ++ [q])%list ->
        failed (fst (perform cl q (remote st))) = true ->
        fst (getPatientsByClinicCode clinicCode st) = Returned (VArr []))
  /\ (forall cl q r db' data error,
        supabase st = Some cl ->
        issued (snd (getPatientsByClinicCode clinicCode st)) = (issued st ++ [q])%list ->
        perform cl q (remote st) = (Returned r, db') ->
        get_member r "data" = Returned data ->
        get_member r "error" = Returned error ->
        truthy error = false ->
        fst (getPatientsByClinicCode clinicCode st)
        = Returned (if truthy data then data else VArr [])
        /\ (forall rows, data = VArr rows ->
            fst (getPatientsByClinicCode clinicCode st) = Returned (VArr rows))).
Proof.
  assert (Hinv : forall v,
             fst (invoke (GetPatientsByClinicCode clinicCode) st) = Returned (Value v) ->
             fst (getPatientsByClinicCode clinicCode st) = Returned v).
  { intros v. simpl. unfold bind, ret.
    destruct (getPatientsByClinicCode clinicCode st) as [[w|e] st']; simpl;
      intros H; simplify_eq; reflexivity. }
  assert (Hsnd : snd (invoke (GetPatientsByClinicCode clinicCode) st)
                 = snd (getPatientsByClinicCode clinicCode st)).
  { simpl. unfold bind, ret.
    destruct (getPatientsByClinicCode clinicCode st) as [[w|e] st']; reflexivity. }
  split; [|split; [|split]].
  - destruct st as [h db iss].
    unfold getPatientsByClinicCode, js_or; unfold_monad; simpl.
    repeat (split_match; simpl in *; simplify_eq); eauto;
      eexists; (split; [reflexivity|]); split; try discriminate;
      intros ->; discriminate.
  - intros Hs. apply Hinv.
    rewrite (invoke_unavailable (GetPatientsByClinicCode clinicCode) st Hs). reflexivity.
  - intros cl q Hs Hq Hf. apply Hinv. rewrite <- Hsnd in Hq.
    exact (invoke_own_call_failed _ st cl q Hs Hq Hf).
  - intros cl q r db' data error Hs Hq Hp Hd He Ht. rewrite <- Hsnd in Hq.
    destruct (invoke_own_call_answered _ st cl q r db' data error Hs Hq Hp Hd He Ht)
      as (_ & _ & Hlist).
    specialize (Hlist clinicCode eq_refl). apply Hinv in Hlist.
    split; [exact Hlist|]. intros rows ->. exact Hlist.
Qed.

(** ** Further properties of the operations *)

(** X1: when the operation's own remote call succeeds, which is a response
    whose [error] member is not set, each single-record operation returns
    the [data] member of that response as it is ([null] or [undefined]
    included), [getPatientsByClinicCode] returns [data || []], and the
    remote is left in the state the client reported. *)
Theorem success_returns_data_untouched c st cl q r db' data error :
  supabase st = Some cl ->
  issued (snd (invoke c st)) = (issued st ++ [q])%list ->
  perform cl q (remote st) = (Returned r, db') ->
  get_member r "data" = Returned data ->
  get_member r "error" = Returned error ->
  truthy error = false ->
  remote (snd (invoke c st)) = db'
  /\ (single_record c = true -> fst (invoke c st) = Returned (Value data))
  /\ (forall code, c = GetPatientsByClinicCode code ->
      fst (invoke c st) = Returned (Value (js_or data (VArr [])))).
Proof. exact (invoke_own_call_answered c st cl q r db' data error). Qed.

(** X2: however many operations are called and whatever the remote answers, the
    list of issued queries only grows at its end, by at most one query per
    call. *)
Theorem calls_issue_at_most_one_query_each (cs : list call) st :
  exists qs, issued (invoke_all cs st) = (issued st ++ qs)%list
             /\ (length qs <= length cs)%nat.
Proof.
  revert st. induction cs as [|c cs IH]; intros st; simpl.
  - exists []. rewrite app_nil_r. split; [reflexivity|simpl; lia].
  - destruct (IH (snd (invoke c st))) as (qs & Hqs & Hlen). rewrite Hqs.
    destruct (invoke_issues c st) as [->|(q & -> & _)].
    + exists qs. split; [reflexivity|lia].
    + exists (q :: qs). rewrite <- app_assoc. split; [reflexivity|simpl; lia].
Qed.

(** X3: a sequence of lookups ([getClinicByCode], [getAllClinics],
    [getPatientById], [getPatientsByClinicCode]) never asks the remote to
    insert or update anything. *)
Theorem lookups_never_write (cs : list call) st :
  forallb is_lookup cs = true ->
  exists qs, issued (invoke_all cs st) = (issued st ++ qs)%list
             /\ Forall (fun q => writes q = false) qs.
Proof.
  revert st. induction cs as [|c cs IH]; intros st Hcs; simpl in *.
  - exists []. rewrite app_nil_r. split; [reflexivity|apply Forall_nil_2].
  - apply andb_prop in Hcs as [Hc Hcs].
    destruct (IH (snd (invoke c st)) Hcs) as (qs & Hqs & Hall). rewrite Hqs.
    destruct (invoke_issues c st) as [->|(q & -> & _ & Hw & _)].
    + exists qs. split; [reflexivity|exact Hall].
    + exists (q :: qs). rewrite <- app_assoc. split; [reflexivity|].
      apply Forall_cons_2; [|exact Hall]. rewrite Hw, Hc. reflexivity.
Qed.

(** X4: an operation only ever addresses its own table: the clinic operations
    send their queries to [clinics], the patient operations to [patients]. *)
Theorem operation_addresses_its_own_table c st (q : query) :
  q ∈ issued (snd (invoke c st)) ->
  q ∈ issued st \/ table_of q = Some (home_table c).
Proof.
  intros Hq. destruct (invoke_issues c st) as [Heq|(q' & Heq & Ht & _)];
    rewrite Heq in Hq; [left; exact Hq|].
  apply elem_of_app in Hq as [Hq|Hq]; [left; exact Hq|].
  apply list_elem_of_singleton in Hq as ->. right. exact Ht.
Qed.

(** X5: no operation sends an update that is not restricted to the rows matching
    its key ([clinic_code] for [updateClinic], [patient_id] for
    [updatePatient]), and no operation inserts more than one row at a time. *)
Theorem writes_are_restricted c st (q : query) :
  q ∈ issued (snd (invoke c st)) ->
  q ∈ issued st
  \/ (inserts_one_row q = true
      /\ (updates_rows q = true ->
          exists column, key_column c = Some column /\ filters_on column q = true)).
Proof.
  intros Hq. destruct (invoke_issues c st) as [Heq|(q' & Heq & _ & _ & Hi & Hu)];
    rewrite Heq in Hq; [left; exact Hq|].
  apply elem_of_app in Hq as [Hq|Hq]; [left; exact Hq|].
  apply list_elem_of_singleton in Hq as ->. right. split; [exact Hi|exact Hu].
Qed.

(** X6: with the backend available nothing is cached, batched or retried: a
    sequence of calls sends exactly one query per call, except that a call
    given a clinic code that is not a string sends none. *)
Theorem available_operation_sends_one_query (cs : list call) st cl :
  supabase st = Some cl ->
  length (issued (invoke_all cs st))
  = (length (issued st)
     + length (filter (fun c => code_unusable c = false) cs))%nat.
Proof.
  revert st. induction cs as [|c cs IH]; intros st Hs; simpl; [lia|].
  rewrite IH by (rewrite invoke_keeps_handle; exact Hs).
  rewrite filter_cons.
  destruct (invoke_issues_count c st cl Hs) as [[-> Hc]|(q & -> & Hc)]; rewrite Hc.
  - rewrite decide_False by discriminate. reflexivity.
  - rewrite decide_True by reflexivity. rewrite length_app. simpl. lia.
Qed.

(** X7: a host on which the module loaded without a client gets a facade
    that does nothing: any sequence of calls leaves the module state as the
    load left it, with no query issued, and every call returns its neutral
    value. *)
Theorem failed_load_leaves_facade_inert (e : environment DB) (db : DB) loaded
    (cs : list call) c :
  module_load e db = Returned loaded ->
  ~ bootstrap_succeeds e ->
  invoke_all cs loaded = loaded
  /\ issued (invoke_all cs loaded) = []
  /\ invoke c (invoke_all cs loaded) = (Returned (neutral c), loaded).
Proof.
  intros Hload Hno. apply module_load_state in Hload as [-> _].
  set (loaded := {| supabase := last (supabase_assignments e);
                    remote := db; issued := [] |}).
  assert (Hs : supabase loaded = None).
  { simpl. destruct (last (supabase_assignments e)) as [cl|] eqn:Hl; [|reflexivity].
    destruct Hno. apply handle_iff_bootstrap. rewrite Hl. discriminate. }
  rewrite (invoke_all_unavailable cs _ Hs).
  split; [reflexivity|]. split; [reflexivity|].
  apply invoke_unavailable. exact Hs.
Qed.

(** X8: [updateClinic] and [getPatientsByClinicCode] run identically on two
    codes with the same upper-case form, and two ASCII codes that differ
    only in the case of their letters are such a pair; for an ASCII code it
    makes no difference to any of the three operations taking a code whether
    the caller upper-cases it first. *)
Theorem code_operations_ignore_case st (a b : string) (updates : value) :
  (toUpperCase a = toUpperCase b \/ (is_ascii a = true /\ same_modulo_case a b) ->
   updateClinic (VStr a) updates st = updateClinic (VStr b) updates st
   /\ getPatientsByClinicCode (VStr a) st = getPatientsByClinicCode (VStr b) st)
  /\ (is_ascii a = true ->
      getClinicByCode (VStr (toUpperCase a)) st = getClinicByCode (VStr a) st
      /\ updateClinic (VStr (toUpperCase a)) updates st = updateClinic (VStr a) updates st
      /\ getPatientsByClinicCode (VStr (toUpperCase a)) st
         = getPatientsByClinicCode (VStr a) st).
Proof.
  split.
  - intros Hab.
    assert (Hup : toUpperCase a = toUpperCase b).
    { destruct Hab as [Hup|[Ha Hab]]; [exact Hup|].
      exact (toUpperCase_modulo_case a b Ha Hab). }
    unfold updateClinic, getPatientsByClinicCode, call_toUpperCase.
    rewrite Hup. auto.
  - intros Ha. pose proof (toUpperCase_idempotent a Ha) as Hidem.
    unfold updateClinic, getPatientsByClinicCode, getClinicByCode, call_toUpperCase.
    rewrite Hidem. auto.
Qed.

(** ** Further properties of [getAllClinics] *)

(** X9: the mapping returned by [getAllClinics] never has more keys than the
    remote returned rows. *)
Theorem getAllClinics_at_most_one_key_per_row st cl r db' (rows : list value) :
  supabase st = Some cl ->
  perform cl [From "clinics"; Select (Some "*")] (remote st) = (Returned r, db') ->
  get_member r "data" = Returned (VArr rows) ->
  exists o, fst (getAllClinics st) = Returned o
            /\ (size (own o) <= length rows)%nat.
Proof.
  intros Hs Hp Hd. destruct st as [h db iss]; simpl in *; subst h.
  unfold getAllClinics, destructure; unfold_monad; simpl.
  rewrite Hp; simpl. rewrite Hd; simpl.
  destruct (get_member r "error") as [error|]; simpl;
    [|exists empty_object; split; [reflexivity|rewrite size_empty_object; lia]].
  destruct (truthy error); simpl;
    [exists empty_object; split; [reflexivity|rewrite size_empty_object; lia]|].
  destruct (forEach_clinic rows empty_object) as [o|] eqn:Hrun; simpl.
  - exists o. split; [reflexivity|].
    apply forEach_clinic_size in Hrun. rewrite size_empty_object in Hrun. lia.
  - exists empty_object. split; [reflexivity|rewrite size_empty_object; lia].
Qed.

(** X10: [getAllClinics] gives all or nothing: when the [data] of the response is
    not an array, or is an array in which one row is [null] or [undefined],
    the result is the empty mapping, whatever the other rows are. *)
Theorem getAllClinics_all_or_nothing st cl r db' (data : value) :
  supabase st = Some cl ->
  perform cl [From "clinics"; Select (Some "*")] (remote st) = (Returned r, db') ->
  get_member r "data" = Returned data ->
  ((forall rows, data ≠ VArr rows)
   \/ exists rows, data = VArr rows /\ (VNull ∈ rows \/ VUndefined ∈ rows)) ->
  fst (getAllClinics st) = Returned empty_object.
Proof.
  intros Hs Hp Hd Hbad. destruct st as [h db iss]; simpl in *; subst h.
  unfold getAllClinics, destructure; unfold_monad; simpl.
  rewrite Hp; simpl. rewrite Hd; simpl.
  destruct (get_member r "error") as [error|]; simpl; [|reflexivity].
  destruct (truthy error); simpl; [reflexivity|].
  destruct Hbad as [Hno|(rows & -> & Hhole)].
  - destruct data as [| |b|n|s|elems|fields]; simpl; try reflexivity.
    + destruct b; reflexivity.
    + destruct (n =? 0)%Z; reflexivity.
    + destruct (String.eqb s ""); reflexivity.
    + destruct (Hno elems). reflexivity.
  - simpl.
    assert (Hthrow : exists e, forEach_clinic rows empty_object = Threw e).
    { destruct Hhole as [Hin|Hin];
        exact (forEach_clinic_throws rows empty_object _ TypeError Hin eq_refl). }
    destruct Hthrow as [e ->]. reflexivity.
Qed.


(** X12: whatever rows the remote returns, as long as none of them has a member
    of its own named [__proto__], the mapping returned by [getAllClinics]
    has no key [__proto__]: a record with that code is never filed. *)
Theorem getAllClinics_never_files_proto st cl r db' (rows : list value) (o : object) :
  supabase st = Some cl ->
  perform cl [From "clinics"; Select (Some "*")] (remote st) = (Returned r, db') ->
  get_member r "data" = Returned (VArr rows) ->
  (forall fields, VObj fields ∈ rows -> fields !! "__proto__" = None) ->
  fst (getAllClinics st) = Returned o ->
  own o !! "__proto__" = None.
Proof.
  intros Hs Hp Hd Hrows Hrun. destruct st as [h db iss]; simpl in *; subst h.
  unfold getAllClinics, destructure in Hrun; unfold_monad; simpl in Hrun.
  rewrite Hp in Hrun; simpl in Hrun. rewrite Hd in Hrun; simpl in Hrun.
  destruct (get_member r "error") as [error|]; simpl in Hrun;
    [|simplify_eq; apply lookup_empty].
  destruct (truthy error); simpl in Hrun; [simplify_eq; apply lookup_empty|].
  destruct (forEach_clinic rows empty_object) as [o'|] eqn:Hloop; simpl in Hrun;
    [|simplify_eq; apply lookup_empty].
  simplify_eq.
  exact (forEach_clinic_no_own_proto rows empty_object o Hrows (lookup_empty _) eq_refl Hloop).
Qed.


(** X14: patient identifiers are matched exactly: two calls of [getPatientById],
    or of [updatePatient], that send the same query were given the same
    identifier, whatever kind of value it is. *)
Theorem patient_ids_are_matched_exactly st cl (a b updates : value) :
  supabase st = Some cl ->
  (issued (snd (getPatientById a st)) = issued (snd (getPatientById b st)) -> a = b)
  /\ (issued (snd (updatePatient a updates st))
      = issued (snd (updatePatient b updates st)) -> a = b).
Proof.
  intros Hs.
  destruct (id_query_issued st cl a Hs) as [Hga Hua].
  destruct (id_query_issued st cl b Hs) as [Hgb Hub].
  split; intros Heq.
  - rewrite Hga, Hgb in Heq. apply app_inv_head in Heq. congruence.
  - rewrite Hua, Hub in Heq. apply app_inv_head in Heq. congruence.
Qed.

(** ** What the load prints *)

Lemma load_announces_handle (e : environment DB) lines :
  load_console e = Returned lines ->
  (LogClientInitialized ∈ lines <-> last (supabase_assignments e) ≠ None).
Proof.
  unfold load_console, supabase_assignments. intros Hlines.
  destruct (createClient e) as [create|] eqn:Hc.
  - assert (Hreq : supabase_js e = ModuleFound (Some create))
      by (unfold createClient in Hc; destruct (supabase_js e); congruence).
    rewrite Hreq in Hlines. simpl in Hlines.
    destruct (_ && _).
    + destruct (create _ _ _) as [cl|err]; simpl.
      * simplify_eq. split; [discriminate|intros _; left].
      * destruct (message_readable err); simplify_eq.
        split; [|congruence]. intros Hin.
        repeat (apply elem_of_cons in Hin as [Hin|Hin]; [discriminate|]).
        apply elem_of_nil in Hin. destruct Hin.
    + simplify_eq. simpl. split; [|congruence]. intros Hin.
      repeat (apply elem_of_cons in Hin as [Hin|Hin]; [discriminate|]).
      apply elem_of_nil in Hin. destruct Hin.
  - simplify_eq. simpl. split; [|congruence]. intros Hin.
    apply elem_of_app in Hin as [Hin|Hin].
    + destruct (supabase_js e);
        repeat (apply elem_of_cons in Hin as [Hin|Hin]; [discriminate|]);
        apply elem_of_nil in Hin; destruct Hin.
    + apply list_elem_of_singleton in Hin. discriminate.
Qed.

Lemma failed_load_reasons (e : environment DB) lines :
  load_console e = Returned lines ->
  last (supabase_assignments e) = None ->
  (WarnPackageNotAvailable ∈ lines <-> createClient e = None)
  /\ (WarnCredentialsNotFound ∈ lines
      <-> createClient e ≠ None
          /\ (SUPABASE_URL e = "" \/ SUPABASE_SERVICE_ROLE_KEY e = ""))
  /\ ((exists err, ErrorInitFailed err ∈ lines)
      <-> createClient e ≠ None
          /\ SUPABASE_URL e ≠ "" /\ SUPABASE_SERVICE_ROLE_KEY e ≠ "").
Proof.
  unfold load_console, supabase_assignments. intros Hlines Hnone.
  destruct (createClient e) as [create|] eqn:Hc.
  - assert (Hreq : supabase_js e = ModuleFound (Some create))
      by (unfold createClient in Hc; destruct (supabase_js e); congruence).
    rewrite Hreq in Hlines. simpl in Hlines.
    destruct (String.eqb_spec (SUPABASE_URL e) "") as [Hu|Hu];
      destruct (String.eqb_spec (SUPABASE_SERVICE_ROLE_KEY e) "") as [Hk|Hk];
      simpl in *.
    4: { destruct (create _ _ _) as [cl|err]; [discriminate|].
         destruct (message_readable err); simplify_eq.
         split; [|split].
         - split; [|discriminate]. intros Hin.
           repeat (apply elem_of_cons in Hin as [Hin|Hin]; [discriminate|]).
           apply elem_of_nil in Hin. destruct Hin.
         - split; [|intros [_ [?|?]]; contradiction]. intros Hin.
           repeat (apply elem_of_cons in Hin as [Hin|Hin]; [discriminate|]).
           apply elem_of_nil in Hin. destruct Hin.
         - split; [intros _; repeat split; [discriminate|assumption|assumption]|].
           intros _. exists err. left. }
    all: simplify_eq; split; [|split].
    all: try (split; [|discriminate]; intros Hin;
              repeat (apply elem_of_cons in Hin as [Hin|Hin]; [discriminate|]);
              apply elem_of_nil in Hin; destruct Hin).
    all: try (split; [intros _; split; [discriminate|auto]|intros _; left]).
    all: split; [|intros (_ & ? & ?); contradiction]; intros [err Hin];
         repeat (apply elem_of_cons in Hin as [Hin|Hin]; [discriminate|]);
         apply elem_of_nil in Hin; destruct Hin.
  - simplify_eq. split; [|split].
    + split; [reflexivity|]. intros _. apply elem_of_app. right. left.
    + split; [|intros [H _]; destruct H; reflexivity]. intros Hin.
      apply elem_of_app in Hin as [Hin|Hin].
      * destruct (supabase_js e);
          repeat (apply elem_of_cons in Hin as [Hin|Hin]; [discriminate|]);
          apply elem_of_nil in Hin; destruct Hin.
      * apply list_elem_of_singleton in Hin. discriminate.
    + split; [|intros [H _]; destruct H; reflexivity]. intros [err Hin].
      apply elem_of_app in Hin as [Hin|Hin].
      * destruct (supabase_js e);
          repeat (apply elem_of_cons in Hin as [Hin|Hin]; [discriminate|]);
          apply elem_of_nil in Hin; destruct Hin.
      * apply list_elem_of_singleton in Hin. discriminate.
Qed.

(** X15: whenever the module loads, the line announcing an initialised client
    is printed exactly when the operations are available afterwards. *)
Theorem load_announces_client_iff_available (e : environment DB) (db : DB) lines :
  load_console e = Returned lines ->
  exists loaded,
    module_load e db = Returned loaded
    /\ (LogClientInitialized ∈ lines
        <-> fst (isSupabaseAvailable loaded) = Returned true).
Proof.
  intros Hlines. unfold module_load. rewrite Hlines. eexists. split; [reflexivity|].
  rewrite available_iff_handle. simpl. exact (load_announces_handle e lines Hlines).
Qed.

(** X16: a load that leaves the operations unavailable names its reason, and
    only one: the package (or its [createClient]) is missing, or else a
    configuration value is missing, or else [createClient] threw.  A missing
    package is reported even when the configuration is missing too. *)
Theorem failed_load_names_one_reason (e : environment DB) (db : DB) lines loaded :
  load_console e = Returned lines ->
  module_load e db = Returned loaded ->
  supabase loaded = None ->
  (WarnPackageNotAvailable ∈ lines <-> createClient e = None)
  /\ (WarnCredentialsNotFound ∈ lines
      <-> createClient e ≠ None
          /\ (SUPABASE_URL e = "" \/ SUPABASE_SERVICE_ROLE_KEY e = ""))
  /\ ((exists err, ErrorInitFailed err ∈ lines)
      <-> createClient e ≠ None
          /\ SUPABASE_URL e ≠ "" /\ SUPABASE_SERVICE_ROLE_KEY e ≠ "").
Proof.
  intros Hlines Hload Hnone. apply module_load_state in Hload as [-> _].
  exact (failed_load_reasons e lines Hlines Hnone).
Qed.

(** X17: the module fails to load in one case only: [createClient] was called
    and threw [null] or [undefined], so that the handler could not read the
    message of what it caught. *)
Theorem load_fails_only_on_unreadable_error (e : environment DB) :
  (exists x, load_console e = Threw x)
  <-> exists create err,
        createClient e = Some create
        /\ SUPABASE_URL e ≠ "" /\ SUPABASE_SERVICE_ROLE_KEY e ≠ ""
        /\ create (SUPABASE_URL e) (SUPABASE_SERVICE_ROLE_KEY e)
             {| autoRefreshToken := false; persistSession := false |} = Threw err
        /\ (err = Thrown VNull \/ err = Thrown VUndefined).
Proof.
  unfold load_console. split.
  - intros [x Hx]. destruct (createClient e) as [create|]; [|discriminate].
    destruct (String.eqb_spec (SUPABASE_URL e) "") as [Hu|Hu]; simpl in Hx; [discriminate|].
    destruct (String.eqb_spec (SUPABASE_SERVICE_ROLE_KEY e) "") as [Hk|Hk];
      simpl in Hx; [discriminate|].
    destruct (create _ _ _) as [cl|err] eqn:Hcreate; [discriminate|].
    exists create, err. repeat split; try assumption.
    destruct err as [|[]]; simpl in Hx; try discriminate; auto.
  - intros (create & err & -> & Hu & Hk & -> & Herr).
    destruct (String.eqb_spec (SUPABASE_URL e) ""); [contradiction|].
    destruct (String.eqb_spec (SUPABASE_SERVICE_ROLE_KEY e) ""); [contradiction|].
    simpl. exists TypeError. destruct Herr as [-> | ->]; reflexivity.
Qed.

(** X18: for a module that has loaded, [isSupabaseAvailable()] is true exactly
    when the load succeeded, which takes all four of: the package was found
    with its [createClient], the URL is set and not empty, the key is set and
    not empty, and [createClient] returned without throwing.  When any of
    them fails the handle is [null] and [isSupabaseAvailable()] is false; an
    empty configuration string counts as a missing one.  A load on which all
    four hold does complete. *)
Theorem available_iff_bootstrap_succeeded (e : environment DB) (db : DB) :
  (bootstrap_succeeds e -> exists loaded, module_load e db = Returned loaded)
  /\ (forall loaded, module_load e db = Returned loaded ->
      (fst (isSupabaseAvailable loaded) = Returned true <-> bootstrap_succeeds e)
      /\ (~ bootstrap_succeeds e ->
          supabase loaded = None
          /\ fst (isSupabaseAvailable loaded) = Returned false)).
Proof.
  split; [apply bootstrap_succeeds_loads|].
  intros loaded Hload. apply module_load_state in Hload as [-> _].
  split.
  - rewrite available_iff_handle. simpl. apply handle_iff_bootstrap.
  - intros Hno.
    assert (Hnone : last (supabase_assignments e) = None).
    { destruct (last (supabase_assignments e)) eqn:Hs; [|reflexivity].
      destruct Hno. apply handle_iff_bootstrap. rewrite Hs. discriminate. }
    split; [exact Hnone|]. apply unavailable_iff_no_handle. exact Hnone.
Qed.

End Properties.

(** ** Concrete runs *)

Example toUpperCase_mixed : toUpperCase "Moon-7x" = "MOON-7X".
Proof. reflexivity. Qed.

Example toUpperCase_kelvin_sign : toUpperCase kelvin_sign = kelvin_sign.
Proof. reflexivity. Qed.

Example ToString_array :
  ToString (VArr [VNum (-12); VNull; VStr "a"; VArr [VNum 0; VBool true]])
  = Returned "-12,,a,0,true".
Proof. reflexivity. Qed.

Example ToString_shadowed :
  ToString (VObj {["toString" := VStr "x"]}) = Threw TypeError.
Proof. reflexivity. Qed.

Example getAllClinics_null_row :
  fst (getAllClinics
         (online (answering (Returned (response (VArr [VObj kept_row; VNull]) VNull)))))
  = Returned empty_object.
Proof. reflexivity. Qed.

Example getClinicByCode_found :
  getClinicByCode (VStr "a") (online (answering (Returned (response (VObj kept_row) VNull))))
  = (Returned (VObj kept_row),
     {| supabase := Some (answering (Returned (response (VObj kept_row) VNull)));
        remote := tt;
        issued := [[From "clinics"; Select (Some "*");
                    Eq "clinic_code" (VStr "A"); Single]] |}).
Proof. reflexivity. Qed.

Example module_load_without_package :
  module_load
    {| supabase_js := ModuleNotFound;
       env_SUPABASE_URL := env_SUPABASE_URL configured;
       env_SUPABASE_SERVICE_ROLE_KEY := env_SUPABASE_SERVICE_ROLE_KEY configured |}
    tt
  = Returned offline.
Proof. reflexivity. Qed.

Example module_load_configured :
  module_load configured tt = Returned (online (answering (Threw network_failure))).
Proof. reflexivity. Qed.

Example module_load_empty_key : module_load empty_key tt = Returned offline.
Proof. reflexivity. Qed.

(** C3: [getAllClinics] is meant to file every returned record under its own
    code.  On the rows with codes [A] and [__proto__] it returns a mapping
    with the single key [A]: the second record is not filed under its code,
    it has become the prototype of the mapping. *)
Theorem getAllClinics_loses_proto_code :
  clinic_key kept_row = Returned "A"
  /\ clinic_key proto_row = Returned "__proto__"
  /\ fst (getAllClinics proto_state)
     = Returned {| own := {["A" := VObj kept_row]};
                   proto := ProtoValue (VObj proto_row) |}
  /\ ({["A" := VObj kept_row]} : gmap string value) !! "__proto__" = None.
Proof. repeat split. Qed.


(** A row whose code is [abc] is filed under [abc]; nothing is filed under
    the upper-cased code [ABC]. *)
Lemma getAllClinics_keeps_lower_case_key :
  clinic_key lower_case_row = Returned "abc"
  /\ fst (getAllClinics lower_case_state)
     = Returned {| own := {["abc" := VObj lower_case_row]};
                   proto := ObjectPrototype |}
  /\ toUpperCase "abc" = "ABC"
  /\ upper_normal "abc" = false
  /\ ({["abc" := VObj lower_case_row]} : gmap string value) !! toUpperCase "abc" = None.
Proof. repeat split. Qed.

(** The Kelvin sign and the letter [k] are the upper-case and the lower-case
    form of one letter; [getClinicByCode] asks for the Kelvin sign as it is
    and for [k] as [K], two different keys. *)
Lemma getClinicByCode_tells_kelvin_sign_from_k :
  issued (snd (getClinicByCode (VStr kelvin_sign) found_state))
  = [[From "clinics"; Select (Some "*"); Eq "clinic_code" (VStr kelvin_sign); Single]]
  /\ issued (snd (getClinicByCode (VStr "k") found_state))
     = [[From "clinics"; Select (Some "*"); Eq "clinic_code" (VStr "K"); Single]]
  /\ kelvin_sign ≠ "K"
  /\ issued (snd (getClinicByCode (VStr kelvin_sign) found_state))
     ≠ issued (snd (getClinicByCode (VStr "k") found_state)).
Proof. repeat split; discriminate. Qed.

(** A successful response whose [data] is one record, not a list:
    [getPatientsByClinicCode] returns the record, which is no sequence. *)
Lemma getPatientsByClinicCode_returns_record_as_is :
  get_member (response (VObj kept_row) VNull) "data" = Returned (VObj kept_row)
  /\ get_member (response (VObj kept_row) VNull) "error" = Returned VNull
  /\ fst (getPatientsByClinicCode (VStr "moon") record_for_list) = Returned (VObj kept_row)
  /\ (forall rows, VObj kept_row ≠ VArr rows).
Proof. repeat split; discriminate. Qed.

(** A response whose [error] is the empty string, which is not [null], and
    whose [data] is a record: [getClinicByCode] returns the record. *)
Lemma empty_string_error_lets_data_through :
  get_member (response (VObj kept_row) (VStr "")) "error" = Returned (VStr "")
  /\ VStr "" ≠ VNull
  /\ fst (invoke (GetClinicByCode (VStr "a")) empty_string_error)
     = Returned (Value (VObj kept_row))
  /\ Value (VObj kept_row) ≠ neutral (GetClinicByCode (VStr "a")).
Proof. repeat split; discriminate. Qed.

(** [getAllClinics] when only the table [clinics] is out of reach. *)
Lemma failure_gives_neutral_value_witness :
  issued (snd (invoke GetAllClinics (online clinics_down)))
  = [[From "clinics"; Select (Some "*")]]
  /\ failed (fst (perform clinics_down [From "clinics"; Select (Some "*")] tt)) = true
  /\ failed (fst (perform clinics_down
                    [From "patients"; Select (Some "*");
                     Eq "clinic_code" (VStr "MOON")] tt)) = false
  /\ fst (invoke GetAllClinics (online clinics_down)) = Returned (Mapping empty_object).
Proof.
  split; [reflexivity|]. split; [reflexivity|]. split; [reflexivity|].
  exact (proj2 (failure_gives_neutral_value GetAllClinics (online clinics_down))
               clinics_down [From "clinics"; Select (Some "*")]
               eq_refl eq_refl eq_refl).
Defined.

(** [createPatient] with no handle. *)
Lemma unavailable_returns_neutral_without_remote_call_witness :
  fst (isSupabaseAvailable offline) = Returned false
  /\ fst (invoke (CreatePatient (patient "p1")) offline) = Returned (Value VNull)
  /\ issued (snd (invoke (CreatePatient (patient "p1")) offline)) = [].
Proof.
  split; [reflexivity|].
  destruct (unavailable_returns_neutral_without_remote_call
              (CreatePatient (patient "p1")) offline eq_refl) as (_ & Hr & Hi & _).
  split; [exact Hr|exact Hi].
Defined.

(** [getClinicByCode("moon")] asks for [MOON], and the row filed under [abc]
    is the row the remote returned. *)
Lemma query_keys_upper_cased_mapping_keys_as_returned_witness :
  supabase lower_case_state
  = Some (answering (Returned (response (VArr [VObj lower_case_row]) VNull)))
  /\ issued (snd (getClinicByCode (VStr "moon") lower_case_state))
     = [[From "clinics"; Select (Some "*"); Eq "clinic_code" (VStr "MOON"); Single]]
  /\ VObj lower_case_row ∈ [VObj lower_case_row].
Proof.
  split; [reflexivity|].
  pose proof (query_keys_upper_cased_mapping_keys_as_returned
                lower_case_state _ "moon" eq_refl)
    as (_ & _ & Hget & _ & _ & Hfiled & _).
  split; [exact Hget|].
  exact (proj1 (Hfiled (response (VArr [VObj lower_case_row]) VNull) tt
                  [VObj lower_case_row]
                  {| own := {["abc" := VObj lower_case_row]}; proto := ObjectPrototype |}
                  "abc" (VObj lower_case_row) eq_refl eq_refl eq_refl eq_refl)).
Defined.

(** [getClinicByCode("abc")] and [getClinicByCode("ABC")] run alike. *)
Lemma getClinicByCode_ignores_case_witness :
  is_ascii "abc" = true
  /\ same_modulo_case "abc" "ABC"
  /\ toUpperCase "abc" = toUpperCase "ABC"
  /\ getClinicByCode (VStr "abc") lower_case_state
     = getClinicByCode (VStr "ABC") lower_case_state.
Proof.
  assert (H : same_modulo_case "abc" "ABC")
    by exact (smc_swap "a" "bc" "BC" (smc_swap "b" "c" "C" (smc_swap "c" "" "" smc_empty))).
  split; [reflexivity|]. split; [exact H|].
  exact (proj1 (proj2 (getClinicByCode_ignores_case lower_case_state "abc" "ABC"))
               eq_refl H).
Defined.

(** Two patients come back in the order received; [null] data gives [[]];
    when only [clinics] is out of reach the patients still come back. *)
Lemma getPatientsByClinicCode_returns_sequence_witness :
  issued (snd (getPatientsByClinicCode (VStr "moon") two_patients))
  = [[From "patients"; Select (Some "*"); Eq "clinic_code" (VStr "MOON")]]
  /\ fst (getPatientsByClinicCode (VStr "moon") two_patients)
     = Returned (VArr [patient "p2"; patient "p1"])
  /\ fst (getPatientsByClinicCode (VStr "moon")
            (online (answering (Returned (response VNull VNull)))))
     = Returned (VArr [])
  /\ fst (getPatientsByClinicCode (VStr "moon") (online clinics_down))
     = Returned (VArr [patient "p2"; patient "p1"]).
Proof.
  split; [reflexivity|]. split; [|split].
  - exact (proj1 (proj2 (proj2 (proj2
             (getPatientsByClinicCode_returns_sequence two_patients (VStr "moon"))))
             _ [From "patients"; Select (Some "*"); Eq "clinic_code" (VStr "MOON")]
             (response (VArr [patient "p2"; patient "p1"]) VNull) tt
             (VArr [patient "p2"; patient "p1"]) VNull
             eq_refl eq_refl eq_refl eq_refl eq_refl eq_refl)).
  - exact (proj1 (proj2 (proj2 (proj2
             (getPatientsByClinicCode_returns_sequence
                (online (answering (Returned (response VNull VNull)))) (VStr "moon"))))
             _ [From "patients"; Select (Some "*"); Eq "clinic_code" (VStr "MOON")]
             (response VNull VNull) tt VNull VNull
             eq_refl eq_refl eq_refl eq_refl eq_refl eq_refl)).
  - exact (proj1 (proj2 (proj2 (proj2
             (getPatientsByClinicCode_returns_sequence (online clinics_down) (VStr "moon"))))
             _ [From "patients"; Select (Some "*"); Eq "clinic_code" (VStr "MOON")]
             (response (VArr [patient "p2"; patient "p1"]) VNull) tt
             (VArr [patient "p2"; patient "p1"]) VNull
             eq_refl eq_refl eq_refl eq_refl eq_refl eq_refl)).
Defined.

(** After any calls the handle of the configured host is the one assigned. *)
Lemma availability_fixed_after_load_witness :
  module_load configured tt = Returned (online (answering (Threw network_failure)))
  /\ supabase (invoke_all [GetAllClinics; CreateClinic (VObj kept_row)]
                 (online (answering (Threw network_failure))))
     = Some (answering (Threw network_failure)).
Proof.
  split; [reflexivity|].
  exact (proj1 (proj1 (proj2 (availability_fixed_after_load
                                configured tt [GetAllClinics; CreateClinic (VObj kept_row)]
                                offline))
                      (online (answering (Threw network_failure))) eq_refl)).
Defined.

(** A response with both a record and an error object gives [null]. *)
Lemma error_takes_precedence_over_data_witness :
  issued (snd (invoke (GetClinicByCode (VStr "a")) data_and_error))
  = [[From "clinics"; Select (Some "*"); Eq "clinic_code" (VStr "A"); Single]]
  /\ get_member (response (VObj kept_row) backend_error) "data" = Returned (VObj kept_row)
  /\ get_member (response (VObj kept_row) backend_error) "error" = Returned backend_error
  /\ truthy backend_error = true
  /\ fst (invoke (GetClinicByCode (VStr "a")) data_and_error) = Returned (Value VNull).
Proof.
  split; [reflexivity|]. split; [reflexivity|]. split; [reflexivity|].
  split; [reflexivity|].
  exact (error_takes_precedence_over_data
           (GetClinicByCode (VStr "a")) data_and_error _
           [From "clinics"; Select (Some "*"); Eq "clinic_code" (VStr "A"); Single]
           (response (VObj kept_row) backend_error) backend_error
           eq_refl eq_refl eq_refl eq_refl eq_refl).
Defined.

(** [null] and [undefined] as the code argument. *)
Lemma non_string_code_gives_neutral_value_witness :
  (forall s, VNull ≠ VStr s)
  /\ getClinicByCode VNull two_patients = (Returned VNull, two_patients)
  /\ updateClinic VUndefined (VObj kept_row) two_patients = (Returned VNull, two_patients)
  /\ getPatientsByClinicCode VNull two_patients = (Returned (VArr []), two_patients).
Proof.
  split; [intros s; discriminate|]. split; [|split].
  - exact (proj1 (non_string_code_gives_neutral_value
                    two_patients _ VNull VNull eq_refl (fun s => ltac:(discriminate)))).
  - exact (proj1 (proj2 (non_string_code_gives_neutral_value
                    two_patients _ VUndefined (VObj kept_row) eq_refl
                    (fun s => ltac:(discriminate))))).
  - exact (proj2 (proj2 (non_string_code_gives_neutral_value
                    two_patients _ VNull VNull eq_refl (fun s => ltac:(discriminate))))).
Defined.


(** ** Concrete runs of the further properties *)

(** [createClinic] hands back the record the remote sent for its insert,
    while a patient query on the same remote would get another answer. *)
Lemma success_returns_data_untouched_witness :
  issued (snd (invoke (CreateClinic (VObj other_row)) found_state))
  = [[From "clinics"; Insert [VObj other_row]; Select None; Single]]
  /\ fst (invoke (CreateClinic (VObj other_row)) found_state)
     = Returned (Value (VObj kept_row))
  /\ fst (invoke (GetPatientsByClinicCode (VStr "moon")) (online clinics_down))
     = Returned (Value (VArr [patient "p2"; patient "p1"])).
Proof.
  split; [reflexivity|]. split.
  - exact (proj1 (proj2 (success_returns_data_untouched
             (CreateClinic (VObj other_row)) found_state _
             [From "clinics"; Insert [VObj other_row]; Select None; Single]
             (response (VObj kept_row) VNull) tt (VObj kept_row) VNull
             eq_refl eq_refl eq_refl eq_refl eq_refl eq_refl)) eq_refl).
  - exact (proj2 (proj2 (success_returns_data_untouched
             (GetPatientsByClinicCode (VStr "moon")) (online clinics_down) _
             [From "patients"; Select (Some "*"); Eq "clinic_code" (VStr "MOON")]
             (response (VArr [patient "p2"; patient "p1"]) VNull) tt
             (VArr [patient "p2"; patient "p1"]) VNull
             eq_refl eq_refl eq_refl eq_refl eq_refl eq_refl)) (VStr "moon") eq_refl).
Defined.

(** Two lookups in a row send two queries, neither of which writes. *)
Lemma lookups_never_write_witness :
  forallb is_lookup [GetAllClinics; GetPatientById (VStr "p1")] = true
  /\ exists qs,
       issued (invoke_all [GetAllClinics; GetPatientById (VStr "p1")] two_patients)
       = ([] ++ qs)%list
       /\ Forall (fun q => writes q = false) qs.
Proof.
  split; [reflexivity|].
  exact (lookups_never_write [GetAllClinics; GetPatientById (VStr "p1")] two_patients eq_refl).
Defined.

(** [createPatient] addresses [patients]. *)
Lemma operation_addresses_its_own_table_witness :
  [From "patients"; Insert [patient "p1"]; Select None; Single]
  ∈ issued (snd (invoke (CreatePatient (patient "p1")) two_patients))
  /\ ([From "patients"; Insert [patient "p1"]; Select None; Single] ∈ issued two_patients
      \/ table_of [From "patients"; Insert [patient "p1"]; Select None; Single]
         = Some "patients").
Proof.
  assert (Hin : [From "patients"; Insert [patient "p1"]; Select None; Single]
                ∈ issued (snd (invoke (CreatePatient (patient "p1")) two_patients)))
    by apply list_elem_of_here.
  split; [exact Hin|].
  exact (operation_addresses_its_own_table
           (CreatePatient (patient "p1")) two_patients _ Hin).
Defined.

(** The update sent by [updateClinic] is restricted by [clinic_code]. *)
Lemma writes_are_restricted_witness :
  [From "clinics"; Update (VObj later_row); Eq "clinic_code" (VStr "A");
   Select None; Single]
  ∈ issued (snd (invoke (UpdateClinic (VStr "a") (VObj later_row)) found_state))
  /\ filters_on "clinic_code"
       [From "clinics"; Update (VObj later_row); Eq "clinic_code" (VStr "A");
        Select None; Single] = true.
Proof.
  assert (Hin : [From "clinics"; Update (VObj later_row); Eq "clinic_code" (VStr "A");
                 Select None; Single]
                ∈ issued (snd (invoke (UpdateClinic (VStr "a") (VObj later_row)) found_state)))
    by apply list_elem_of_here.
  split; [exact Hin|].
  destruct (writes_are_restricted
              (UpdateClinic (VStr "a") (VObj later_row)) found_state _ Hin)
    as [Hold|[_ Hupd]].
  - apply elem_of_nil in Hold. destruct Hold.
  - destruct (Hupd eq_refl) as (column & Hcolumn & Hfilter).
    injection Hcolumn as <-. exact Hfilter.
Defined.

(** Three calls, one of them with [null] for a code: two queries. *)
Lemma available_operation_sends_one_query_witness :
  supabase found_state = Some (answering (Returned (response (VObj kept_row) VNull)))
  /\ length (issued (invoke_all
                       [GetClinicByCode (VStr "a"); GetClinicByCode VNull; GetAllClinics]
                       found_state))
     = 2%nat.
Proof.
  split; [reflexivity|].
  exact (available_operation_sends_one_query
           [GetClinicByCode (VStr "a"); GetClinicByCode VNull; GetAllClinics]
           found_state _ eq_refl).
Defined.

(** With an empty key the module loads without a client, and nothing is ever
    sent. *)
Lemma failed_load_leaves_facade_inert_witness :
  module_load empty_key tt = Returned offline
  /\ ~ bootstrap_succeeds empty_key
  /\ invoke_all [CreateClinic (VObj kept_row); GetAllClinics] offline = offline
  /\ issued (invoke_all [CreateClinic (VObj kept_row); GetAllClinics] offline) = []
  /\ invoke (GetPatientsByClinicCode (VStr "a"))
       (invoke_all [CreateClinic (VObj kept_row); GetAllClinics] offline)
     = (Returned (Value (VArr [])), offline).
Proof.
  assert (Hno : ~ bootstrap_succeeds empty_key).
  { intros (create & url & key & cl & _ & _ & _ & Hkey & Hne & _).
    injection Hkey as <-. apply Hne. reflexivity. }
  split; [reflexivity|]. split; [exact Hno|].
  exact (failed_load_leaves_facade_inert
           empty_key tt offline [CreateClinic (VObj kept_row); GetAllClinics]
           (GetPatientsByClinicCode (VStr "a")) eq_refl Hno).
Defined.

(** [updateClinic("abc", ...)] and [updateClinic("ABC", ...)] run alike. *)
Lemma code_operations_ignore_case_witness :
  is_ascii "abc" = true
  /\ same_modulo_case "abc" "ABC"
  /\ updateClinic (VStr "abc") (VObj later_row) found_state
     = updateClinic (VStr "ABC") (VObj later_row) found_state
  /\ getPatientsByClinicCode (VStr "ABC") two_patients
     = getPatientsByClinicCode (VStr "abc") two_patients.
Proof.
  assert (H : same_modulo_case "abc" "ABC")
    by exact (smc_swap "a" "bc" "BC" (smc_swap "b" "c" "C" (smc_swap "c" "" "" smc_empty))).
  split; [reflexivity|]. split; [exact H|]. split.
  - exact (proj1 (proj1 (code_operations_ignore_case
                           found_state "abc" "ABC" (VObj later_row))
                        (or_intror (conj eq_refl H)))).
  - exact (proj2 (proj2 (proj2 (code_operations_ignore_case
                                  two_patients "abc" "ABC" VNull) eq_refl))).
Defined.

(** Three rows, two of them with the same code: at most three keys. *)
Lemma getAllClinics_at_most_one_key_per_row_witness :
  exists o, fst (getAllClinics duplicate_state) = Returned o
            /\ (size (own o) <= 3)%nat.
Proof.
  exact (getAllClinics_at_most_one_key_per_row
           duplicate_state _ _ tt [VObj kept_row; VObj other_row; VObj later_row]
           eq_refl eq_refl eq_refl).
Defined.

(** A [null] among the rows empties the mapping. *)
Lemma getAllClinics_all_or_nothing_witness :
  VNull ∈ [VObj kept_row; VNull; VObj other_row]
  /\ fst (getAllClinics holed_state) = Returned empty_object.
Proof.
  assert (Hin : VNull ∈ [VObj kept_row; VNull; VObj other_row])
    by (apply list_elem_of_further, list_elem_of_here).
  split; [exact Hin|].
  apply (getAllClinics_all_or_nothing
           holed_state _ _ tt (VArr [VObj kept_row; VNull; VObj other_row])
           eq_refl eq_refl eq_refl).
  right. exists [VObj kept_row; VNull; VObj other_row]. split; [reflexivity|left; exact Hin].
Defined.


(** The row with the code [__proto__] is not in the mapping. *)
Lemma getAllClinics_never_files_proto_witness :
  (forall fields, VObj fields ∈ [VObj kept_row; VObj proto_row] ->
                  fields !! "__proto__" = None)
  /\ own {| own := {["A" := VObj kept_row]}; proto := ProtoValue (VObj proto_row) |}
       !! "__proto__" = None.
Proof.
  assert (Hrows : forall fields, VObj fields ∈ [VObj kept_row; VObj proto_row] ->
                                 fields !! "__proto__" = None).
  { intros fields Hin.
    apply elem_of_cons in Hin as [Hin|Hin]; [injection Hin as ->; reflexivity|].
    apply elem_of_cons in Hin as [Hin|Hin]; [injection Hin as ->; reflexivity|].
    apply elem_of_nil in Hin. destruct Hin. }
  split; [exact Hrows|].
  exact (getAllClinics_never_files_proto
           proto_state _ _ tt [VObj kept_row; VObj proto_row] _
           eq_refl eq_refl eq_refl Hrows eq_refl).
Defined.


(** The identifiers [p1] and [P1] give different queries. *)
Lemma patient_ids_are_matched_exactly_witness :
  supabase found_state = Some (answering (Returned (response (VObj kept_row) VNull)))
  /\ issued (snd (getPatientById (VStr "p1") found_state))
     ≠ issued (snd (getPatientById (VStr "P1") found_state)).
Proof.
  split; [reflexivity|]. intros Heq.
  pose proof (proj1 (patient_ids_are_matched_exactly
                       found_state _ (VStr "p1") (VStr "P1") VNull eq_refl) Heq) as H.
  discriminate H.
Defined.

(** The configured host prints the line and is available. *)
Lemma load_announces_client_iff_available_witness :
  load_console configured = Returned [LogClientInitialized]
  /\ exists loaded,
       module_load configured tt = Returned loaded
       /\ fst (isSupabaseAvailable loaded) = Returned true.
Proof.
  split; [reflexivity|].
  destruct (load_announces_client_iff_available
              configured tt [LogClientInitialized] eq_refl) as (loaded & Hload & Hiff).
  exists loaded. split; [exact Hload|].
  apply (proj1 Hiff). apply list_elem_of_here.
Defined.

(** A refusing [createClient] is the one reason named. *)
Lemma failed_load_names_one_reason_witness :
  load_console refusing = Returned [ErrorInitFailed (Thrown backend_error); WarnFileFallback]
  /\ module_load refusing tt = Returned offline
  /\ ~ WarnPackageNotAvailable
       ∈ [ErrorInitFailed (Thrown backend_error); WarnFileFallback]
  /\ ~ WarnCredentialsNotFound
       ∈ [ErrorInitFailed (Thrown backend_error); WarnFileFallback].
Proof.
  split; [reflexivity|]. split; [reflexivity|].
  destruct (failed_load_names_one_reason
              refusing tt [ErrorInitFailed (Thrown backend_error); WarnFileFallback]
              offline eq_refl eq_refl eq_refl) as (Hpkg & Hcred & _).
  split.
  - intros Hin. apply Hpkg in Hin. discriminate Hin.
  - intros Hin. apply Hcred in Hin as [_ [Hu|Hk]]; discriminate.
Defined.

(** A [createClient] that throws [null] makes the load fail. *)
Lemma load_fails_only_on_unreadable_error_witness :
  exists x, load_console throwing_null = Threw x.
Proof.
  apply (proj2 (load_fails_only_on_unreadable_error throwing_null)).
  exists (fun _ _ _ => Threw (Thrown VNull)), (Thrown VNull).
  repeat split; try discriminate. left. reflexivity.
Defined.

(** A configured host is available; the same host with an empty key is not. *)
Lemma available_iff_bootstrap_succeeded_witness :
  bootstrap_succeeds configured
  /\ module_load configured tt = Returned (online (answering (Threw network_failure)))
  /\ fst (isSupabaseAvailable (online (answering (Threw network_failure))))
     = Returned true
  /\ ~ bootstrap_succeeds empty_key
  /\ module_load empty_key tt = Returned offline
  /\ fst (isSupabaseAvailable offline) = Returned false.
Proof.
  assert (Hok : bootstrap_succeeds configured).
  { eexists _, _, _, _. repeat split; try reflexivity; discriminate. }
  assert (Hno : ~ bootstrap_succeeds empty_key).
  { intros (create & url & key & cl & _ & _ & _ & Hkey & Hne & _).
    injection Hkey as <-. apply Hne. reflexivity. }
  split; [exact Hok|]. split; [reflexivity|]. split.
  - exact (proj2 (proj1 (proj2 (available_iff_bootstrap_succeeded configured tt)
                           (online (answering (Threw network_failure))) eq_refl)) Hok).
  - split; [exact Hno|]. split; [reflexivity|].
    exact (proj2 (proj2 (proj2 (available_iff_bootstrap_succeeded empty_key tt)
                           offline eq_refl) Hno)).
Defined.
